(** * The Salesforce add-in: its API service and session checks

    A shallow embedding of [salesforce-service.js] (class
    [SalesforceService]) and of the session-expiry check of the task pane
    script, followed by the properties proved about them.

    Conventions of the embedding.
    - A JavaScript value is a [value]; numbers are integers (status codes,
      lengths, millisecond timestamps), with NaN kept apart as [None] of
      [Number].  A string is a [string] whose characters are code units
      below 256.
    - A [throw] is the [Throw] outcome; mutations made before a throw
      stay in the state, as they do in JavaScript.
    - [async]/[await] is sequential composition: the service never starts
      two operations at once.
    - What the host provides and the repository does not define
      ([JSON.parse], [JSON.stringify]) and the remote server are the
      fields of a [Host]. *)

From Stdlib Require Import ZArith List String Ascii Bool Lia DecimalString.
From Stdlib Require Import DecimalPos.
Import ListNotations.

Local Open Scope string_scope.
Local Open Scope Z_scope.

Set Warnings "-register-all".

(** ** JavaScript values *)

Inductive value : Type :=
| VUndefined
| VNull
| VBool (b : bool)
| VNum (n : Z)
| VStr (s : string)
| VArr (items : list value)
| VObj (fields : list (string * value)).

Inductive error : Type :=
| JsError (message : string)   (* new Error(message) *)
| TypeError
| SyntaxError.

Inductive outcome (A : Type) : Type :=
| Ok (a : A)
| Throw (e : error).

Arguments Ok {A} a.
Arguments Throw {A} e.

Definition obind {A B : Type} (o : outcome A) (k : A -> outcome B) : outcome B :=
  match o with
  | Ok a => k a
  | Throw e => Throw e
  end.

(** ToBoolean: what [if (x)], [!x], [&&] and [||] test. *)
Definition truthy (v : value) : bool :=
  match v with
  | VUndefined | VNull => false
  | VBool b => b
  | VNum n => negb (n =? 0)
  | VStr s => negb (s =? "")%string
  | VArr _ | VObj _ => true
  end.

Definition nullish (v : value) : bool :=
  match v with
  | VUndefined | VNull => true
  | _ => false
  end.

(** [a || b] and [a && b] on already evaluated operands. *)
Definition js_or (a b : value) : value := if truthy a then a else b.

Fixpoint lookup (k : string) (fs : list (string * value)) : value :=
  match fs with
  | [] => VUndefined
  | (k', v) :: rest => if (k =? k')%string then v else lookup k rest
  end.

(** [v.k] for a property name [k] that is neither an index nor inherited
    from a prototype, [length] apart. *)
Definition get (v : value) (k : string) : outcome value :=
  match v with
  | VUndefined | VNull => Throw TypeError
  | VObj fs => Ok (lookup k fs)
  | VArr items =>
      Ok (if (k =? "length")%string then VNum (Z.of_nat (List.length items))
          else VUndefined)
  | VStr s =>
      Ok (if (k =? "length")%string then VNum (Z.of_nat (String.length s))
          else VUndefined)
  | VBool _ | VNum _ => Ok VUndefined
  end.

Definition string_of_Z (n : Z) : string :=
  NilZero.string_of_int (Z.to_int n).

(** ToString, as template literals and [Array.prototype.join] apply it.
    An integer prints as its decimal digits (its magnitude is taken below
    10^21, where JavaScript switches to exponent notation). *)
Fixpoint ToString (v : value) : string :=
  match v with
  | VUndefined => "undefined"
  | VNull => "null"
  | VBool true => "true"
  | VBool false => "false"
  | VNum n => string_of_Z n
  | VStr s => s
  | VArr items =>
      String.concat ","
        (map (fun x => match x with
                       | VUndefined | VNull => ""
                       | _ => ToString x
                       end) items)
  | VObj _ => "[object Object]"
  end.

(** ** Numbers that may be NaN *)

Definition Number : Type := option Z.

Definition NaN : Number := None.

Definition num_sub (a b : Number) : Number :=
  match a, b with
  | Some x, Some y => Some (x - y)
  | _, _ => NaN
  end.

(** [a > b]: false as soon as one side is NaN. *)
Definition num_gt (a b : Number) : bool :=
  match a, b with
  | Some x, Some y => x >? y
  | _, _ => false
  end.

(** ** parseInt, with no radix argument *)

Definition isWhiteSpace (c : ascii) : bool :=
  let n := nat_of_ascii c in
  existsb (Nat.eqb n) [9; 10; 11; 12; 13; 32; 160]%nat.

Fixpoint trimStart (s : string) : string :=
  match s with
  | String c rest => if isWhiteSpace c then trimStart rest else s
  | EmptyString => s
  end.

Definition digitValue (c : ascii) : option Z :=
  let n := Z.of_nat (nat_of_ascii c) in
  if (48 <=? n) && (n <=? 57) then Some (n - 48)
  else if (97 <=? n) && (n <=? 122) then Some (n - 87)
  else if (65 <=? n) && (n <=? 90) then Some (n - 55)
  else None.

(** The longest prefix of radix-[R] digits, read as a number; [acc] is
    the value of the digits consumed so far, [NaN] before the first. *)
Fixpoint readDigits (R : Z) (acc : Number) (s : string) : Number :=
  match s with
  | EmptyString => acc
  | String c rest =>
      match digitValue c with
      | Some d =>
          if d <? R
          then readDigits R (Some (match acc with
                                   | Some a => a * R + d
                                   | None => d
                                   end)) rest
          else acc
      | None => acc
      end
  end.

Definition parseInt (input : string) : Number :=
  let str := trimStart input in
  let '(sign, str) :=
    match str with
    | String "-"%char rest => (-1, rest)
    | String "+"%char rest => (1, rest)
    | _ => (1, str)
    end in
  let '(R, str) :=
    match str with
    | String "0"%char (String "x"%char rest) => (16, rest)
    | String "0"%char (String "X"%char rest) => (16, rest)
    | _ => (10, str)
    end in
  option_map (Z.mul sign) (readDigits R NaN str).

(** ** The task pane's expiry check *)

Definition expirationTime : Z := 2 * 60 * 60 * 1000.

(** [isTokenExpired(session)], with the reading of [Date.now()] as the
    argument [now]. *)
Definition isTokenExpired (now : Z) (session : value) : outcome bool :=
  obind (get session "issued_at") (fun issued_at =>
  if negb (truthy issued_at) then Ok true
  else
    let issuedAt := parseInt (ToString issued_at) in
    Ok (num_gt (num_sub (Some now) issuedAt) (Some expirationTime))).

(** ** encodeURIComponent *)

Definition isUnreserved (c : ascii) : bool :=
  let n := nat_of_ascii c in
  ((48 <=? n) && (n <=? 57))%nat || ((65 <=? n) && (n <=? 90))%nat
  || ((97 <=? n) && (n <=? 122))%nat
  || existsb (Ascii.eqb c)
       ["-"; "_"; "."; "!"; "~"; "*"; "'"; "("; ")"]%char.

Definition hexDigit (n : nat) : ascii :=
  nth n ["0"; "1"; "2"; "3"; "4"; "5"; "6"; "7"; "8"; "9";
         "A"; "B"; "C"; "D"; "E"; "F"]%char "0"%char.

Definition percentByte (n : nat) : string :=
  String "%" (String (hexDigit (n / 16)) (String (hexDigit (n mod 16)) "")).

(** Each escaped code unit goes out as the bytes of its UTF-8 encoding:
    one byte below 128, two from 128 to 255. *)
Fixpoint encodeURIComponent (s : string) : string :=
  match s with
  | EmptyString => ""
  | String c rest =>
      let n := nat_of_ascii c in
      (if isUnreserved c then String c ""
       else if (n <? 128)%nat then percentByte n
       else percentByte (192 + n / 64) ++ percentByte (128 + n mod 64))
      ++ encodeURIComponent rest
  end.

(** ** Objects: assignment, [delete], [Object.keys] *)

Fixpoint assign (k : string) (v : value) (fs : list (string * value))
  : list (string * value) :=
  match fs with
  | [] => [(k, v)]
  | (k', v') :: rest =>
      if (k =? k')%string then (k, v) :: rest else (k', v') :: assign k v rest
  end.

(** [o.k = v] in strict code (a class body).  Nothing reads a named
    property of an array back, and [JSON.stringify] does not print it. *)
Definition set (o : value) (k : string) (v : value) : outcome value :=
  match o with
  | VObj fs => Ok (VObj (assign k v fs))
  | VArr _ => Ok o
  | _ => Throw TypeError
  end.

Definition delete (k : string) (fs : list (string * value))
  : list (string * value) :=
  filter (fun kv => negb (k =? fst kv)%string) fs.

Definition keys (fs : list (string * value)) : list string := map fst fs.

(** [Object.keys(o).forEach(key => { if (!o[key]) delete o[key]; })] *)
Definition removeEmptyFields (fs : list (string * value))
  : list (string * value) :=
  fold_left
    (fun o key => if negb (truthy (lookup key o)) then delete key o else o)
    (keys fs) fs.

(** ** The browser and the remote server *)

Inductive Body : Type :=
| NoBody
| JsonBody (text : string)
| FormBody (params : list (string * string)).   (* URLSearchParams *)

Record Request : Type := mkRequest {
  url : string;
  method : string;
  authorization : option string;
  contentType : string;
  body : Body
}.

Record Response : Type := mkResponse {
  status : Z;
  text : string
}.

Definition ok (r : Response) : bool :=
  (200 <=? status r) && (status r <=? 299).

(** [JSON.parse] answers [None] where it throws a SyntaxError.  The
    server answers a request knowing the requests it has received before;
    [None] is a network failure, on which [fetch] rejects. *)
Record Host : Type := mkHost {
  JSON_parse : string -> option value;
  JSON_stringify : value -> string;
  remote : list Request -> Request -> option Response
}.

(** The fields of the service object, the [salesforceSession] entry of
    [localStorage] (the only key the code uses), the requests sent so far
    and what went to [console.error]. *)
Record State : Type := mkState {
  accessToken : value;
  instanceUrl : value;
  localStorage : option string;
  sent : list Request;
  console : list (string * error)
}.

(** [new SalesforceService()] in a browser with the given stored entry. *)
Definition newService (stored : option string) : State :=
  mkState VNull VNull stored [] [].

Definition set_accessToken (v : value) (w : State) : State :=
  mkState v (instanceUrl w) (localStorage w) (sent w) (console w).

Definition set_instanceUrl (v : value) (w : State) : State :=
  mkState (accessToken w) v (localStorage w) (sent w) (console w).

Definition set_localStorage (x : option string) (w : State) : State :=
  mkState (accessToken w) (instanceUrl w) x (sent w) (console w).

Definition add_sent (r : Request) (w : State) : State :=
  mkState (accessToken w) (instanceUrl w) (localStorage w) (sent w ++ [r])
          (console w).

Definition add_console (label : string) (e : error) (w : State) : State :=
  mkState (accessToken w) (instanceUrl w) (localStorage w) (sent w)
          (console w ++ [(label, e)]).

(** ** Computations that change a state and may throw *)

Definition M (S A : Type) : Type := S -> outcome A * S.

Definition ret {S A : Type} (a : A) : M S A := fun s => (Ok a, s).

Definition throw {S A : Type} (e : error) : M S A := fun s => (Throw e, s).

Definition bind {S A B : Type} (m : M S A) (k : A -> M S B) : M S B :=
  fun s =>
    match m s with
    | (Ok a, s') => k a s'
    | (Throw e, s') => (Throw e, s')
    end.

(** [try { m } catch (e) { handler e }] *)
Definition tryCatch {S A : Type} (m : M S A) (handler : error -> M S A)
  : M S A :=
  fun s =>
    match m s with
    | (Ok a, s') => (Ok a, s')
    | (Throw e, s') => handler e s'
    end.

Definition gets {S A : Type} (f : S -> A) : M S A := fun s => (Ok (f s), s).

Definition modify {S : Type} (f : S -> S) : M S unit := fun s => (Ok tt, f s).

Definition liftO {S A : Type} (o : outcome A) : M S A := fun s => (o, s).

(** A computation on the state, run beside a local variable. *)
Definition zoom {L S A : Type} (m : M S A) : M (L * S) A :=
  fun ls =>
    let '(o, s') := m (snd ls) in (o, (fst ls, s')).

(** [const x = init; ...]: a block with a local variable it may assign. *)
Definition withLocal {L S A : Type} (init : L) (m : M (L * S) A) : M S A :=
  fun s =>
    let '(o, ls) := m (init, s) in (o, snd ls).

Declare Scope js_scope.
Delimit Scope js_scope with js.
Notation "x <- m ;; k" := (bind m (fun x => k))
  (at level 61, m at next level, right associativity) : js_scope.
Notation "m ;; k" := (bind m (fun _ => k))
  (at level 61, right associativity) : js_scope.
Local Open Scope js_scope.

Fixpoint filterM (p : value -> outcome bool) (l : list value)
  : outcome (list value) :=
  match l with
  | [] => Ok []
  | x :: rest =>
      obind (p x) (fun keep =>
      obind (filterM p rest) (fun rest' =>
      Ok (if keep then x :: rest' else rest')))
  end.

Fixpoint mapM (f : value -> outcome value) (l : list value)
  : outcome (list value) :=
  match l with
  | [] => Ok []
  | x :: rest =>
      obind (f x) (fun y =>
      obind (mapM f rest) (fun rest' => Ok (y :: rest')))
  end.

(** SameValueZero, the equality of [Set].  Two objects are the same only
    if they are one object; those compared here sit at different places
    of one parsed response. *)
Definition sameValueZero (a b : value) : bool :=
  match a, b with
  | VUndefined, VUndefined | VNull, VNull => true
  | VBool x, VBool y => Bool.eqb x y
  | VNum x, VNum y => x =? y
  | VStr x, VStr y => (x =? y)%string
  | _, _ => false
  end.

(** [[...new Set(l)]] *)
Definition unique (l : list value) : list value :=
  fold_left
    (fun seen x => if existsb (sameValueZero x) seen then seen else (seen ++ [x])%list)
    l [].

(** [l.map(x => `'${x}'`).join(',')] *)
Definition quotedList (l : list value) : string :=
  String.concat "," (map (fun x => "'" ++ ToString x ++ "'") l).

Definition LF : string := String "010"%char "".

Fixpoint spaces (n : nat) : string :=
  match n with
  | O => ""
  | S n' => String " "%char (spaces n')
  end.

(** ** The service *)

Record Results : Type := mkResults {
  contacts : value;
  leads : value;
  accounts : value;
  opportunities : value
}.

Definition set_contacts (v : value) (r : Results) : Results :=
  mkResults v (leads r) (accounts r) (opportunities r).

Definition set_leads (v : value) (r : Results) : Results :=
  mkResults (contacts r) v (accounts r) (opportunities r).

Definition set_accounts (v : value) (r : Results) : Results :=
  mkResults (contacts r) (leads r) v (opportunities r).

Definition set_opportunities (v : value) (r : Results) : Results :=
  mkResults (contacts r) (leads r) (accounts r) v.

Definition apiVersion : string := "v58.0".

Definition NotAuthenticated : error := JsError "Not authenticated".

Definition AuthExpired : error :=
  JsError "Authentication expired. Please re-authenticate.".

Definition NoRefreshToken : error := JsError "No refresh token available".

Definition RefreshExpired : error := JsError "Refresh token expired".

Definition apiUrl (instance : value) (endpoint : string) : string :=
  ToString instance ++ "/services/data/" ++ apiVersion ++ "/" ++ endpoint.

Definition tokenUrl (instance : value) : string :=
  ToString instance ++ "/services/oauth2/token".

Definition bearer (token : value) : string := "Bearer " ++ ToString token.

Section Service.

Variable h : Host.

(** [JSON.parse(localStorage.getItem('salesforceSession'))]: [getItem]
    gives null for a missing entry, and [JSON.parse(null)] is null. *)
Definition parseStored (entry : option string) : outcome value :=
  match entry with
  | None => Ok VNull
  | Some s =>
      match JSON_parse h s with
      | Some v => Ok v
      | None => Throw SyntaxError
      end
  end.

Definition fetch (r : Request) : M State Response :=
  fun w =>
    match remote h (sent w) r with
    | Some response => (Ok response, add_sent r w)
    | None => (Throw TypeError, add_sent r w)
    end.

(** [response.json()] *)
Definition json (r : Response) : outcome value :=
  match JSON_parse h (text r) with
  | Some v => Ok v
  | None => Throw SyntaxError
  end.

Definition refreshRequest (instance refresh_token clientId : value) : Request :=
  mkRequest (tokenUrl instance) "POST" None
    "application/x-www-form-urlencoded"
    (FormBody [("grant_type", "refresh_token");
               ("refresh_token", ToString refresh_token);
               ("client_id", ToString clientId)]).

Definition refreshToken (clientId : value) : M State value :=
  entry <- gets localStorage ;;
  session <- liftO (parseStored entry) ;;
  refresh_token <-
    (if truthy session then liftO (get session "refresh_token")
     else ret VUndefined) ;;
  if negb (truthy session) || negb (truthy refresh_token)
  then throw NoRefreshToken
  else
    instance <- gets instanceUrl ;;
    response <- fetch (refreshRequest instance refresh_token clientId) ;;
    if negb (ok response)
    then
      (* Refresh token expired, need full re-authentication *)
      modify (set_localStorage None) ;;
      throw RefreshExpired
    else
      tokenData <- liftO (json response) ;;
      access_token <- liftO (get tokenData "access_token") ;;
      modify (set_accessToken access_token) ;;
      (* Update stored session *)
      session <- liftO (set session "access_token" access_token) ;;
      issued_at <- liftO (get tokenData "issued_at") ;;
      session <- liftO (set session "issued_at" issued_at) ;;
      modify (set_localStorage (Some (JSON_stringify h session))) ;;
      ret tokenData.

(** The first statement of [apiCall]: the read-through from the store
    when the service holds no access token. *)
Definition resolveCredentials : M State unit :=
  token <- gets accessToken ;;
  if negb (truthy token)
  then
    entry <- gets localStorage ;;
    session <- liftO (parseStored entry) ;;
    access_token <-
      (if truthy session then liftO (get session "access_token")
       else ret session) ;;
    if truthy access_token
    then
      modify (set_accessToken access_token) ;;
      instance_url <- liftO (get session "instance_url") ;;
      modify (set_instanceUrl instance_url)
    else throw NotAuthenticated
  else ret tt.

Definition sendsBody (method : string) : bool :=
  ((method =? "POST") || (method =? "PATCH") || (method =? "PUT"))%string.

(** [url] and [options] of [apiCall], for the credentials held in [w]. *)
Definition apiRequest (endpoint method : string) (data : value) (w : State)
  : Request :=
  mkRequest (apiUrl (instanceUrl w) endpoint) method
    (Some (bearer (accessToken w)))
    "application/json"
    (if truthy data && sendsBody method then JsonBody (JSON_stringify h data)
     else NoBody).

Definition withAuthorization (a : string) (r : Request) : Request :=
  mkRequest (url r) (method r) (Some a) (contentType r) (body r).

Definition apiCall (endpoint method : string) (data : value) : M State value :=
  resolveCredentials ;;
  options <- gets (apiRequest endpoint method data) ;;
  response <- fetch options ;;
  if status response =? 401
  then
    (* Token expired, try to refresh *)
    tryCatch
      (refreshToken VUndefined ;;
       (* Retry the original request *)
       token <- gets accessToken ;;
       retryResponse <- fetch (withAuthorization (bearer token) options) ;;
       if negb (ok retryResponse)
       then throw (JsError ("API call failed: "
                            ++ string_of_Z (status retryResponse)))
       else liftO (json retryResponse))
      (fun refreshError => throw AuthExpired)
  else if negb (ok response)
  then
    throw (JsError ("API call failed: " ++ string_of_Z (status response)
                    ++ " - " ++ text response))
  else if status response =? 204
  then ret (VObj [])   (* Handle empty responses (like DELETE operations) *)
  else liftO (json response).

Definition query (soql : string) : M State value :=
  apiCall ("query/?q=" ++ encodeURIComponent soql) "GET" VNull.

Definition createRecord (objectType : string) (recordData : value)
  : M State value :=
  apiCall ("sobjects/" ++ objectType ++ "/") "POST" recordData.

(** The object [createContact] builds and then strips of its empty
    fields. *)
Definition contactRecord (contactData : value) : outcome value :=
  obind (get contactData "firstName") (fun firstName =>
  obind (get contactData "lastName") (fun lastName =>
  obind (get contactData "email") (fun email =>
  obind (get contactData "phone") (fun phone =>
  obind (get contactData "title") (fun title =>
  obind (get contactData "department") (fun department =>
  obind (get contactData "description") (fun description =>
  Ok (VObj (removeEmptyFields
              [("FirstName", firstName);
               ("LastName", lastName);
               ("Email", email);
               ("Phone", phone);
               ("Title", title);
               ("Department", department);
               ("Description", description)]))))))))).

Definition createContact (contactData : value) : M State value :=
  contact <- liftO (contactRecord contactData) ;;
  createRecord "Contact" contact.

Definition leadRecord (leadData : value) : outcome value :=
  obind (get leadData "firstName") (fun firstName =>
  obind (get leadData "lastName") (fun lastName =>
  obind (get leadData "email") (fun email =>
  obind (get leadData "phone") (fun phone =>
  obind (get leadData "company") (fun company =>
  obind (get leadData "title") (fun title =>
  obind (get leadData "status") (fun status =>
  obind (get leadData "source") (fun source =>
  obind (get leadData "description") (fun description =>
  Ok (VObj (removeEmptyFields
              [("FirstName", firstName);
               ("LastName", lastName);
               ("Email", email);
               ("Phone", phone);
               ("Company", company);
               ("Title", title);
               ("Status", js_or status (VStr "Open - Not Contacted"));
               ("LeadSource", js_or source (VStr "Email"));
               ("Description", description)]))))))))))).

Definition createLead (leadData : value) : M State value :=
  lead <- liftO (leadRecord leadData) ;;
  createRecord "Lead" lead.

(** *** findRelatedRecords *)

Definition emptyResults : Results :=
  mkResults (VArr []) (VArr []) (VArr []) (VArr []).

Definition contactQuery (emailList : string) : string :=
  "SELECT Id, Name, Email, Account.Name, Account.Id, Title " ++ LF
  ++ spaces 33 ++ "FROM Contact " ++ LF
  ++ spaces 33 ++ "WHERE Email IN (" ++ emailList ++ ")".

Definition accountQuery (accountList : string) : string :=
  "SELECT Id, Name, Type, Industry " ++ LF
  ++ spaces 41 ++ "FROM Account " ++ LF
  ++ spaces 41 ++ "WHERE Id IN (" ++ accountList ++ ")".

Definition oppQuery (accountList : string) : string :=
  "SELECT Id, Name, StageName, Amount, CloseDate, Account.Name " ++ LF
  ++ spaces 37 ++ "FROM Opportunity " ++ LF
  ++ spaces 37 ++ "WHERE AccountId IN (" ++ accountList ++ ") " ++ LF
  ++ spaces 37 ++ "AND IsClosed = false " ++ LF
  ++ spaces 37 ++ "ORDER BY CloseDate ASC " ++ LF
  ++ spaces 37 ++ "LIMIT 10".

Definition leadQuery (emailList : string) : string :=
  "SELECT Id, Name, Email, Company, Title, Status " ++ LF
  ++ spaces 30 ++ "FROM Lead " ++ LF
  ++ spaces 30 ++ "WHERE Email IN (" ++ emailList ++ ") " ++ LF
  ++ spaces 30 ++ "AND IsConverted = false".

(** A method of [Array.prototype] called on [v]: a TypeError unless [v]
    is an array. *)
Definition asArray (v : value) : outcome (list value) :=
  match v with
  | VArr items => Ok items
  | _ => Throw TypeError
  end.

(** [contact => contact.Account && contact.Account.Id] *)
Definition hasAccountId (contact : value) : outcome bool :=
  obind (get contact "Account") (fun account =>
  if truthy account
  then obind (get account "Id") (fun id => Ok (truthy id))
  else Ok false).

(** [contact => contact.Account.Id] *)
Definition accountIdOf (contact : value) : outcome value :=
  obind (get contact "Account") (fun account => get account "Id").

Definition assignLocal (f : Results -> Results) : M (Results * State) unit :=
  modify (fun ls => (f (fst ls), snd ls)).

(** The body of the [try] block; [results] is the local it assigns. *)
Definition findRelatedRecords_try (emailAddresses : value)
  : M (Results * State) unit :=
  emails <- liftO (asArray emailAddresses) ;;
  let emailList := quotedList emails in
  (* Find contacts *)
  contactResult <- zoom (query (contactQuery emailList)) ;;
  records <- liftO (get contactResult "records") ;;
  (if truthy records
   then
     assignLocal (set_contacts records) ;;
     (* Get related accounts from contacts *)
     items <- liftO (asArray records) ;;
     withAccount <- liftO (filterM hasAccountId items) ;;
     accountIds <- liftO (mapM accountIdOf withAccount) ;;
     if (0 <? Z.of_nat (List.length accountIds))
     then
       let uniqueAccountIds := unique accountIds in
       let accountList := quotedList uniqueAccountIds in
       accountResult <- zoom (query (accountQuery accountList)) ;;
       accountRecords <- liftO (get accountResult "records") ;;
       (if truthy accountRecords
        then assignLocal (set_accounts accountRecords)
        else ret tt) ;;
       (* Get related opportunities *)
       oppResult <- zoom (query (oppQuery accountList)) ;;
       oppRecords <- liftO (get oppResult "records") ;;
       if truthy oppRecords
       then assignLocal (set_opportunities oppRecords)
       else ret tt
     else ret tt
   else ret tt) ;;
  (* Find leads (not converted) *)
  leadResult <- zoom (query (leadQuery emailList)) ;;
  leadRecords <- liftO (get leadResult "records") ;;
  if truthy leadRecords
  then assignLocal (set_leads leadRecords)
  else ret tt.

(** [x === 0] *)
Definition isZero (x : value) : bool :=
  match x with
  | VNum 0 => true
  | _ => false
  end.

Definition findRelatedRecords (emailAddresses : value) : M State Results :=
  withLocal emptyResults
    (noAddresses <-
       (if negb (truthy emailAddresses) then ret true
        else
          len <- liftO (get emailAddresses "length") ;;
          ret (isZero len)) ;;
     if (noAddresses : bool)
     then gets fst
     else
       tryCatch (findRelatedRecords_try emailAddresses)
         (fun error =>
            zoom (modify (add_console "Error finding related records:"
                                      error))) ;;
       gets fst).

(** *** The session accessors *)

(** [localStorage.getItem('salesforceSession')]: null or a string. *)
Definition getItem : M State value :=
  entry <- gets localStorage ;;
  ret (match entry with
       | None => VNull
       | Some s => VStr s
       end).

(** [JSON.parse(session)] for the [session] that [getItem] gave. *)
Definition JSON_parse_item (session : value) : outcome value :=
  match session with
  | VStr s => parseStored (Some s)
  | _ => parseStored None
  end.

Definition isAuthenticated : M State bool :=
  session <- getItem ;;
  if negb (truthy session) then ret false
  else
    tryCatch
      (sessionData <- liftO (JSON_parse_item session) ;;
       access_token <- liftO (get sessionData "access_token") ;;
       if truthy access_token
       then
         instance_url <- liftO (get sessionData "instance_url") ;;
         ret (truthy instance_url)
       else ret false)
      (fun e => ret false).

Definition getSessionInfo : M State value :=
  session <- getItem ;;
  if negb (truthy session) then ret VNull
  else
    tryCatch (liftO (JSON_parse_item session)) (fun e => ret VNull).

End Service.

(** ** A concrete host, for the examples

    [stringify] is [JSON.stringify] on the values of this model, and
    [parseAmong] a [JSON.parse] that knows the texts of finitely many
    values and refuses every other text. *)

Definition hexDigitLower (n : nat) : ascii :=
  nth n ["0"; "1"; "2"; "3"; "4"; "5"; "6"; "7"; "8"; "9";
         "a"; "b"; "c"; "d"; "e"; "f"]%char "0"%char.

Definition quoteChar (c : ascii) : string :=
  let n := nat_of_ascii c in
  if (n =? 34)%nat then String "\" (String c "")
  else if (n =? 92)%nat then "\\"
  else if (n =? 8)%nat then "\b"
  else if (n =? 12)%nat then "\f"
  else if (n =? 10)%nat then "\n"
  else if (n =? 13)%nat then "\r"
  else if (n =? 9)%nat then "\t"
  else if (n <? 32)%nat
       then "\u00" ++ String (hexDigitLower (n / 16))
                        (String (hexDigitLower (n mod 16)) "")
  else String c "".

Fixpoint quoteChars (s : string) : string :=
  match s with
  | EmptyString => ""
  | String c rest => quoteChar c ++ quoteChars rest
  end.

Definition quote (s : string) : string :=
  String "034" (quoteChars s ++ String "034" "").

Fixpoint stringify (v : value) : string :=
  match v with
  | VUndefined => "undefined"
  | VNull => "null"
  | VBool true => "true"
  | VBool false => "false"
  | VNum n => string_of_Z n
  | VStr s => quote s
  | VArr items =>
      "[" ++ String.concat ","
               (map (fun x => match x with
                              | VUndefined => "null"
                              | _ => stringify x
                              end) items) ++ "]"
  | VObj fields =>
      "{" ++ String.concat ","
               (flat_map (fun kv => match kv with
                                    | (_, VUndefined) => []
                                    | (k, x) => [quote k ++ ":" ++ stringify x]
                                    end) fields) ++ "}"
  end.

Definition parseAmong (known : list value) (s : string) : option value :=
  find (fun v => (stringify v =? s)%string) known.

Definition contains (needle s : string) : bool :=
  match index 0 needle s with
  | Some _ => true
  | None => false
  end.

(** *** The hosts and states of the examples *)

Definition instance0 : value := VStr "https://acme.my.salesforce.com".

(** A service that holds the access token T1, with nothing stored. *)
Definition signedIn : State := mkState (VStr "T1") instance0 None [] [].

Definition leadsFound : value :=
  VObj [("records",
         VArr [VObj [("Id", VStr "00Q1"); ("Email", VStr "x@y.com")]])].

Definition contactsFound : value :=
  VObj [("records",
         VArr [VObj [("Id", VStr "0031"); ("Email", VStr "x@y.com")]])].

(** A server on which the named object can be queried and every other
    request fails with status 500. *)
Definition onlyServer (object : string) (found : value)
  : list Request -> Request -> option Response :=
  fun _ r =>
    if contains object (url r) then Some (mkResponse 200 (stringify found))
    else Some (mkResponse 500 "").

Definition leadsOnlyHost : Host :=
  mkHost (parseAmong [leadsFound]) stringify (onlyServer "Lead" leadsFound).

Definition contactsOnlyHost : Host :=
  mkHost (parseAmong [contactsFound]) stringify
         (onlyServer "Contact" contactsFound).

(** The session the task pane stores in demo mode: no refresh token. *)
Definition demoSession : value :=
  VObj [("access_token", VStr "T1");
        ("instance_url", instance0);
        ("issued_at", VStr "1700000000000");
        ("signature", VStr "mock_signature");
        ("token_type", VStr "Bearer")].

(** A session as the code exchange stores it. *)
Definition fullSession : value :=
  VObj [("access_token", VStr "T1");
        ("refresh_token", VStr "R1");
        ("instance_url", instance0);
        ("issued_at", VStr "1700000000000");
        ("signature", VStr "sig")].

Definition tokenData : value :=
  VObj [("access_token", VStr "T2"); ("issued_at", VStr "1700007200001")].

Definition refreshedSession : value :=
  VObj [("access_token", VStr "T2");
        ("refresh_token", VStr "R1");
        ("instance_url", instance0);
        ("issued_at", VStr "1700007200001");
        ("signature", VStr "sig")].

(** A server that answers 401 to every request. *)
Definition rejectingServer : list Request -> Request -> option Response :=
  fun _ _ => Some (mkResponse 401 "").

(** A server on which T1 has expired: the token endpoint hands out T2,
    a request that carries T2 gets [answer], any other gets 401. *)
Definition refreshingServer (answer : Response)
  : list Request -> Request -> option Response :=
  fun _ r =>
    match body r with
    | FormBody _ => Some (mkResponse 200 (stringify tokenData))
    | _ =>
        match authorization r with
        | Some a => if (a =? "Bearer T2")%string then Some answer
                    else Some (mkResponse 401 "")
        | None => Some (mkResponse 401 "")
        end
    end.

Definition knownTexts : list value :=
  [demoSession; fullSession; tokenData; refreshedSession].

Definition rejectingHost : Host :=
  mkHost (parseAmong knownTexts) stringify rejectingServer.

Definition refreshingHost (answer : Response) : Host :=
  mkHost (parseAmong knownTexts) stringify (refreshingServer answer).

(** A session issued at time 0. *)
Definition expiredSession : value :=
  VObj [("access_token", VStr "T1");
        ("instance_url", instance0);
        ("issued_at", VStr "0")].

Definition expiredHost : Host :=
  mkHost (parseAmong [expiredSession]) stringify rejectingServer.

(** ** Notions the statements use *)

(** [v.k] is there and truthy. *)
Definition present (v : value) (k : string) : bool :=
  match get v k with
  | Ok x => truthy x
  | Throw _ => false
  end.

(** The value of [v.k] where the access does not throw. *)
Definition prop (v : value) (k : string) : value :=
  match get v k with
  | Ok x => x
  | Throw _ => VUndefined
  end.

(** An input field that is absent ([undefined], [null]) or empty. *)
Definition emptyOrAbsent (v : value) : bool :=
  match v with
  | VUndefined | VNull => true
  | VStr s => (s =? "")%string
  | _ => false
  end.

(** [o.hasOwnProperty(k)] *)
Definition has (k : string) (fs : list (string * value)) : bool :=
  existsb (String.eqb k) (keys fs).

Definition nonEmpty (kv : string * value) : bool := truthy (snd kv).

(** The session a non-empty stored text parses to. *)
Definition storedSession (h : Host) (w : State) : option value :=
  match localStorage w with
  | Some s => if (s =? "")%string then None else JSON_parse h s
  | None => None
  end.

(** From the data model of the specification: [issuedAt] is within the
    validity window of two hours from issuance. *)
Definition withinValidityWindow (now : Z) (session : value) : bool :=
  match get session "issued_at" with
  | Ok issued_at =>
      truthy issued_at &&
      match parseInt (ToString issued_at) with
      | Some t => now - t <=? expirationTime
      | None => false
      end
  | Throw _ => false
  end.

(** From the data model of the specification: a session is usable iff
    [accessToken] and [instanceUrl] are both present and [issuedAt] is
    within the validity window. *)
Definition usable (now : Z) (session : value) : bool :=
  present session "access_token" && present session "instance_url"
  && withinValidityWindow now session.

(** The remote field name of each input field of [createContact]. *)
Definition contactMapping : list (string * string) :=
  [("FirstName", "firstName"); ("LastName", "lastName"); ("Email", "email");
   ("Phone", "phone"); ("Title", "title"); ("Department", "department");
   ("Description", "description")].

Definition contactFields (d : value) : list (string * value) :=
  map (fun m => (fst m, prop d (snd m))) contactMapping.

(** The fields of [createLead] that have no default. *)
Definition leadMapping : list (string * string) :=
  [("FirstName", "firstName"); ("LastName", "lastName"); ("Email", "email");
   ("Phone", "phone"); ("Company", "company"); ("Title", "title");
   ("Description", "description")].

Definition defaultStatus : value := VStr "Open - Not Contacted".

Definition defaultLeadSource : value := VStr "Email".

Definition leadFields (d : value) : list (string * value) :=
  [("FirstName", prop d "firstName");
   ("LastName", prop d "lastName");
   ("Email", prop d "email");
   ("Phone", prop d "phone");
   ("Company", prop d "company");
   ("Title", prop d "title");
   ("Status", if truthy (prop d "status") then prop d "status"
              else defaultStatus);
   ("LeadSource", if truthy (prop d "source") then prop d "source"
                  else defaultLeadSource);
   ("Description", prop d "description")].

(** The token exchange, as opposed to an attempt at the call's request. *)
Definition isRefresh (r : Request) : bool :=
  match body r with
  | FormBody _ => true
  | _ => false
  end.

Definition attempts (l : list Request) : list Request :=
  filter (fun r => negb (isRefresh r)) l.

(** ** The other operations of the service *)

(** The groups [findByEmail] returns. *)
Module ByEmail.

Record t : Type := mk {
  contacts : value;
  leads : value
}.

Definition set_contacts (v : value) (r : t) : t := mk v (leads r).

Definition set_leads (v : value) (r : t) : t := mk (contacts r) v.

Definition empty : t := mk (VArr []) (VArr []).

End ByEmail.

(** [x === s] for a string literal [s]. *)
Definition isString (s : string) (x : value) : bool :=
  match x with
  | VStr t => (t =? s)%string
  | _ => false
  end.

(** A parameter with a default value: the default stands in for an
    argument that is missing or [undefined]. *)
Definition orDefault (default v : value) : value :=
  match v with
  | VUndefined => default
  | _ => v
  end.

(** [l.forEach(f)] *)
Fixpoint forEachM {S : Type} (f : value -> M S unit) (l : list value)
  : M S unit :=
  match l with
  | [] => ret tt
  | x :: rest => (f x ;; forEachM f rest)%js
  end.

(** [a[0]] *)
Definition firstItem (a : value) : outcome value :=
  match a with
  | VUndefined | VNull => Throw TypeError
  | VArr items => Ok (nth 0 items VUndefined)
  | VStr (String c _) => Ok (VStr (String c ""))
  | VObj fs => Ok (lookup "0" fs)
  | _ => Ok VUndefined
  end.

Section Operations.

Variable h : Host.

Definition exchangeRequest (instance code clientId redirectUri : value)
  : Request :=
  mkRequest (tokenUrl instance) "POST" None
    "application/x-www-form-urlencoded"
    (FormBody [("grant_type", "authorization_code");
               ("code", ToString code);
               ("client_id", ToString clientId);
               ("redirect_uri", ToString redirectUri)]).

Definition exchangeCodeForToken (code clientId redirectUri : value)
  : M State value :=
  instance <- gets instanceUrl ;;
  response <- fetch h (exchangeRequest instance code clientId redirectUri) ;;
  if negb (ok response)
  then throw (JsError ("Token exchange failed: "
                       ++ string_of_Z (status response)))
  else
    tokenData <- liftO (json h response) ;;
    access_token <- liftO (get tokenData "access_token") ;;
    modify (set_accessToken access_token) ;;
    instance_url <- liftO (get tokenData "instance_url") ;;
    modify (set_instanceUrl instance_url) ;;
    (* Store in localStorage for persistence *)
    refresh_token <- liftO (get tokenData "refresh_token") ;;
    issued_at <- liftO (get tokenData "issued_at") ;;
    signature <- liftO (get tokenData "signature") ;;
    let sessionData :=
      VObj [("access_token", access_token);
            ("refresh_token", refresh_token);
            ("instance_url", instance_url);
            ("issued_at", issued_at);
            ("signature", signature)] in
    modify (set_localStorage (Some (JSON_stringify h sessionData))) ;;
    ret sessionData.

Definition deleteRecord (objectType : string) (recordId : value)
  : M State value :=
  apiCall h ("sobjects/" ++ objectType ++ "/" ++ ToString recordId)
    "DELETE" VNull.

(** The record [logEmail] builds. *)
Definition emailRecord (emailData relatedRecordId : value) : outcome value :=
  let relatedRecordId := orDefault VNull relatedRecordId in
  obind (get emailData "subject") (fun subject =>
  obind (get emailData "body") (fun body =>
  obind (get emailData "from") (fun from =>
  obind (get emailData "to") (fun to =>
  obind (get emailData "date") (fun date =>
  obind (get emailData "incoming") (fun incoming =>
  let emailRecord :=
    VObj [("Subject", subject);
          ("TextBody", body);
          ("FromAddress", from);
          ("ToAddress", to);
          ("MessageDate", date);
          ("Status", VStr "3");   (* Sent *)
          ("Incoming", js_or incoming (VBool false))] in
  if truthy relatedRecordId
  then set emailRecord "RelatedToId" relatedRecordId
  else Ok emailRecord)))))).

Definition logEmail (emailData relatedRecordId : value) : M State value :=
  emailRecord <- liftO (emailRecord emailData relatedRecordId) ;;
  createRecord h "EmailMessage" emailRecord.

(** The record [createEmailTask] builds; [today] is
    [new Date().toISOString().split('T')[0]]. *)
Definition taskRecord (today : string)
    (emailData relatedRecordId contactId : value) : outcome value :=
  let relatedRecordId := orDefault VNull relatedRecordId in
  let contactId := orDefault VNull contactId in
  obind (get emailData "subject") (fun subject =>
  obind (get emailData "body") (fun body =>
  let taskRecord :=
    VObj [("Subject", VStr ("Email: " ++ ToString subject));
          ("Description", body);
          ("ActivityDate", VStr today);   (* Today's date *)
          ("Status", VStr "Completed");
          ("Type", VStr "Email");
          ("Priority", VStr "Normal")] in
  obind (if truthy relatedRecordId
         then set taskRecord "WhatId" relatedRecordId
         else Ok taskRecord) (fun taskRecord =>
  if truthy contactId
  then set taskRecord "WhoId" contactId
  else Ok taskRecord))).

Definition createEmailTask (today : string)
    (emailData relatedRecordId contactId : value) : M State value :=
  taskRecord <- liftO (taskRecord today emailData relatedRecordId contactId) ;;
  createRecord h "Task" taskRecord.

Definition findByEmail_contactQuery (emailAddress : value) : string :=
  "SELECT Id, Name, Email, Account.Name, Title FROM Contact WHERE Email = '"
  ++ ToString emailAddress ++ "'".

Definition findByEmail_leadQuery (emailAddress : value) : string :=
  "SELECT Id, Name, Email, Company, Title FROM Lead WHERE Email = '"
  ++ ToString emailAddress ++ "' AND IsConverted = false".

Definition findByEmail (emailAddress : value) : M State ByEmail.t :=
  withLocal ByEmail.empty
    (tryCatch
       ((* Search Contacts *)
        contactResult <- zoom (query h (findByEmail_contactQuery emailAddress)) ;;
        records <- liftO (get contactResult "records") ;;
        modify (fun ls => (ByEmail.set_contacts (js_or records (VArr [])) (fst ls),
                           snd ls)) ;;
        (* Search Leads *)
        leadResult <- zoom (query h (findByEmail_leadQuery emailAddress)) ;;
        leadRecords <- liftO (get leadResult "records") ;;
        modify (fun ls => (ByEmail.set_leads (js_or leadRecords (VArr [])) (fst ls),
                           snd ls)))
       (fun error =>
          zoom (modify (add_console "Error finding records by email:" error))) ;;
     gets fst).

Definition getCurrentUserId : M State value :=
  userInfo <- apiCall h "sobjects/User/me" "GET" VNull ;;
  liftO (get userInfo "Id").

Definition getOrgInfo : M State value :=
  apiCall h "sobjects/Organization" "GET" VNull.

Definition recentActivitiesQuery (userId limit : value) : string :=
  "SELECT Id, Subject, ActivityDate, Type, Status, Who.Name, What.Name " ++ LF
  ++ spaces 22 ++ "FROM Task " ++ LF
  ++ spaces 22 ++ "WHERE OwnerId = '" ++ ToString userId ++ "' " ++ LF
  ++ spaces 22 ++ "ORDER BY CreatedDate DESC " ++ LF
  ++ spaces 22 ++ "LIMIT " ++ ToString limit.

Definition getRecentActivities (limit : value) : M State value :=
  let limit := orDefault (VNum 10) limit in
  userId <- getCurrentUserId ;;
  query h (recentActivitiesQuery userId limit).

Definition userActivitiesQuery (userId limit : value) : string :=
  "SELECT Id, Subject, Description, ActivityDate, Status, Type, Priority,"
  ++ LF
  ++ spaces 26 ++ "Who.Name, Who.Type, What.Name, What.Type, CreatedDate" ++ LF
  ++ spaces 26 ++ "FROM Task " ++ LF
  ++ spaces 26 ++ "WHERE OwnerId = '" ++ ToString userId ++ "'" ++ LF
  ++ spaces 26 ++ "ORDER BY CreatedDate DESC " ++ LF
  ++ spaces 26 ++ "LIMIT " ++ ToString limit.

Definition getUserActivities (limit : value) : M State value :=
  let limit := orDefault (VNum 20) limit in
  tryCatch
    (userId <- getCurrentUserId ;;
     query h (userActivitiesQuery userId limit))
    (fun error =>
       modify (add_console "Error getting user activities:" error) ;;
       ret (VObj [("records", VArr [])])).

Definition searchContactsQuery (searchTerm : value) : string :=
  let term := ToString searchTerm in
  "SELECT Id, Name, Email, Phone, Account.Name, Title " ++ LF
  ++ spaces 33 ++ "FROM Contact " ++ LF
  ++ spaces 33 ++ "WHERE Name LIKE '%" ++ term ++ "%' " ++ LF
  ++ spaces 33 ++ "OR Email LIKE '%" ++ term ++ "%' " ++ LF
  ++ spaces 33 ++ "OR Account.Name LIKE '%" ++ term ++ "%'" ++ LF
  ++ spaces 33 ++ "LIMIT 10".

Definition searchLeadsQuery (searchTerm : value) : string :=
  let term := ToString searchTerm in
  "SELECT Id, Name, Email, Phone, Company, Title " ++ LF
  ++ spaces 30 ++ "FROM Lead " ++ LF
  ++ spaces 30 ++ "WHERE IsConverted = false " ++ LF
  ++ spaces 30 ++ "AND (Name LIKE '%" ++ term ++ "%' " ++ LF
  ++ spaces 30 ++ "OR Email LIKE '%" ++ term ++ "%' " ++ LF
  ++ spaces 30 ++ "OR Company LIKE '%" ++ term ++ "%')" ++ LF
  ++ spaces 30 ++ "LIMIT 10".

(** The object pushed for a contact. *)
Definition contactRow (contact : value) : outcome value :=
  obind (get contact "Id") (fun id =>
  obind (get contact "Name") (fun name =>
  obind (get contact "Email") (fun email =>
  obind (get contact "Phone") (fun phone =>
  obind (get contact "Account") (fun account =>
  obind (if truthy account then get account "Name" else Ok (VStr ""))
        (fun company =>
  obind (get contact "Title") (fun title =>
  Ok (VObj [("id", id); ("name", name); ("email", email); ("phone", phone);
            ("company", company); ("title", title);
            ("type", VStr "Contact")])))))))).

(** The object pushed for a lead. *)
Definition leadRow (lead : value) : outcome value :=
  obind (get lead "Id") (fun id =>
  obind (get lead "Name") (fun name =>
  obind (get lead "Email") (fun email =>
  obind (get lead "Phone") (fun phone =>
  obind (get lead "Company") (fun company =>
  obind (get lead "Title") (fun title =>
  Ok (VObj [("id", id); ("name", name); ("email", email); ("phone", phone);
            ("company", company); ("title", title);
            ("type", VStr "Lead")]))))))).

(** [results.push(row(x))], [results] being the local. *)
Definition pushRow (row : value -> outcome value) (x : value)
  : M (list value * State) unit :=
  r <- liftO (row x) ;;
  modify (fun ls => ((fst ls ++ [r])%list, snd ls)).

Definition searchContactsAndLeads (searchTerm : value)
  : M State (list value) :=
  withLocal []
    (tryCatch
       ((* Search contacts *)
        contactResult <- zoom (query h (searchContactsQuery searchTerm)) ;;
        records <- liftO (get contactResult "records") ;;
        (if truthy records
         then
           items <- liftO (asArray records) ;;
           forEachM (pushRow contactRow) items
         else ret tt) ;;
        (* Search leads *)
        leadResult <- zoom (query h (searchLeadsQuery searchTerm)) ;;
        leadRecords <- liftO (get leadResult "records") ;;
        if truthy leadRecords
        then
          items <- liftO (asArray leadRecords) ;;
          forEachM (pushRow leadRow) items
        else ret tt)
       (fun error =>
          zoom (modify (add_console "Error searching contacts and leads:"
                                    error))) ;;
     gets fst).

(** [relatedToType === 'Contact' || relatedToType === 'Lead'] *)
Definition isPerson (relatedToType : value) : bool :=
  isString "Contact" relatedToType || isString "Lead" relatedToType.

(** The task [createActivityFromEmail] builds.  Each default is read
    only when the field of [activityData] is falsy. *)
Definition activityTask (today : string) (emailData activityData : value)
  : outcome value :=
  obind (get activityData "subject") (fun subject =>
  obind (if truthy subject then Ok subject
         else obind (get emailData "subject") (fun s =>
              Ok (VStr ("Email: " ++ ToString s)))) (fun Subject =>
  obind (get activityData "description") (fun description =>
  obind (if truthy description then Ok description
         else get emailData "body") (fun Description =>
  obind (get activityData "status") (fun status =>
  obind (get activityData "type") (fun type =>
  obind (get activityData "priority") (fun priority =>
  let task :=
    VObj [("Subject", Subject);
          ("Description", Description);
          ("ActivityDate", VStr today);
          ("Status", js_or status (VStr "Completed"));
          ("Type", js_or type (VStr "Email"));
          ("Priority", js_or priority (VStr "Normal"))] in
  (* Link to related record if provided *)
  obind (get activityData "relatedToId") (fun relatedToId =>
  if truthy relatedToId
  then
    obind (get activityData "relatedToType") (fun relatedToType =>
    if isPerson relatedToType
    then set task "WhoId" relatedToId
    else set task "WhatId" relatedToId)
  else Ok task)))))))).

Definition createActivityFromEmail (today : string)
    (emailData activityData : value) : M State value :=
  task <- liftO (activityTask today emailData activityData) ;;
  createRecord h "Task" task.

(** [x > 0] for a value [x]; [positiveText s] says whether the text [s]
    converts to a number above 0. *)
Definition gtZero (positiveText : string -> bool) (x : value) : bool :=
  match x with
  | VNum n => 0 <? n
  | VBool b => b
  | VStr s => positiveText s
  | VArr _ => positiveText (ToString x)
  | VUndefined | VNull | VObj _ => false
  end.

(** [orgInfo.records && orgInfo.records.length > 0
      ? orgInfo.records[0].k : 'Unknown'] *)
Definition orgField (positiveText : string -> bool) (orgInfo : value)
    (k : string) : outcome value :=
  obind (get orgInfo "records") (fun records =>
  obind (if truthy records
         then obind (get records "length") (fun len =>
              Ok (gtZero positiveText len))
         else Ok false) (fun some =>
  if (some : bool)
  then obind (firstItem records) (fun record => get record k)
  else Ok (VStr "Unknown"))).

(** [error.message]; the text of an error the engine throws is the
    engine's. *)
Definition messageOf (engineMessage : error -> string) (e : error) : value :=
  match e with
  | JsError message => VStr message
  | _ => VStr (engineMessage e)
  end.

Definition testConnection (positiveText : string -> bool)
    (engineMessage : error -> string) : M State value :=
  tryCatch
    (userInfo <- apiCall h "sobjects/User/me" "GET" VNull ;;
     orgInfo <- getOrgInfo ;;
     id <- liftO (get userInfo "Id") ;;
     name <- liftO (get userInfo "Name") ;;
     email <- liftO (get userInfo "Email") ;;
     username <- liftO (get userInfo "Username") ;;
     orgName <- liftO (orgField positiveText orgInfo "Name") ;;
     orgId <- liftO (orgField positiveText orgInfo "Id") ;;
     ret (VObj [("success", VBool true);
                ("user", VObj [("id", id); ("name", name); ("email", email);
                               ("username", username)]);
                ("org", VObj [("name", orgName); ("id", orgId)])]))
    (fun error =>
       ret (VObj [("success", VBool false);
                  ("error", messageOf engineMessage error)])).

Definition logout : M State unit :=
  modify (set_accessToken VNull) ;;
  modify (set_instanceUrl VNull) ;;
  modify (set_localStorage None).

End Operations.

(** ** The task pane *)

(** [Math.floor(a / b)] for integers and [b] above 0. *)
Definition floorDiv (a b : Z) : Z := a / b.

(** [getTimeAgo(date)]: [now] is the reading of [new Date()] and [date]
    the time value of the argument, both in milliseconds. *)
Definition getTimeAgo (now date : Z) : string :=
  let diffMs := now - date in
  let diffHours := floorDiv diffMs (1000 * 60 * 60) in
  let diffDays := floorDiv diffHours 24 in
  if diffDays >? 0
  then string_of_Z diffDays ++ " day" ++ (if diffDays >? 1 then "s" else "")
       ++ " ago"
  else if diffHours >? 0
  then string_of_Z diffHours ++ " hour"
       ++ (if diffHours >? 1 then "s" else "") ++ " ago"
  else
    let diffMins := floorDiv diffMs (1000 * 60) in
    string_of_Z diffMins ++ " minute" ++ (if diffMins >? 1 then "s" else "")
    ++ " ago".

(** The global [salesforceSession], the two sections of the page (hidden
    or shown), the colour of the connection mark, the stored entry, the
    console, the loaders that were called and the alerts shown.  What a
    loader does after it is called happens on later ticks and touches
    its own container only. *)
Record Pane : Type := mkPane {
  salesforceSession : value;
  authSectionHidden : bool;
  mainAppHidden : bool;
  connectionStatusColor : string;
  paneStorage : option string;
  paneConsole : list (string * error);
  loading : list string;
  alerts : list string
}.

Definition set_salesforceSession (v : value) (p : Pane) : Pane :=
  mkPane v (authSectionHidden p) (mainAppHidden p) (connectionStatusColor p)
         (paneStorage p) (paneConsole p) (loading p) (alerts p).

Definition set_paneStorage (x : option string) (p : Pane) : Pane :=
  mkPane (salesforceSession p) (authSectionHidden p) (mainAppHidden p)
         (connectionStatusColor p) x (paneConsole p) (loading p) (alerts p).

Definition showAuthSection (p : Pane) : Pane :=
  mkPane (salesforceSession p) false true (connectionStatusColor p)
         (paneStorage p) (paneConsole p) (loading p) (alerts p).

Definition showMainApp (p : Pane) : Pane :=
  mkPane (salesforceSession p) true false "#28a745"
         (paneStorage p) (paneConsole p) (loading p) (alerts p).

Definition callLoader (name : string) (p : Pane) : Pane :=
  mkPane (salesforceSession p) (authSectionHidden p) (mainAppHidden p)
         (connectionStatusColor p) (paneStorage p) (paneConsole p)
         (loading p ++ [name]) (alerts p).

Definition paneError (label : string) (e : error) (p : Pane) : Pane :=
  mkPane (salesforceSession p) (authSectionHidden p) (mainAppHidden p)
         (connectionStatusColor p) (paneStorage p)
         (paneConsole p ++ [(label, e)]) (loading p) (alerts p).

Definition alert (message : string) (p : Pane) : Pane :=
  mkPane (salesforceSession p) (authSectionHidden p) (mainAppHidden p)
         (connectionStatusColor p) (paneStorage p) (paneConsole p)
         (loading p) (alerts p ++ [message]).

Section TaskPane.

Variable h : Host.

(** [checkSalesforceAuth()], run when [Date.now()] reads [now].  The
    [try] block answers whether it has returned. *)
Definition checkSalesforceAuth (now : Z) : M Pane unit :=
  returned <-
    tryCatch
      (savedSession <- gets paneStorage ;;
       match savedSession with
       | Some s =>
           if negb (s =? "")%string
           then
             session <- liftO (parseStored h (Some s)) ;;
             modify (set_salesforceSession session) ;;
             access_token <- liftO (get session "access_token") ;;
             fresh <-
               (if truthy access_token
                then
                  expired <- liftO (isTokenExpired now session) ;;
                  ret (negb expired)
                else ret false) ;;
             if (fresh : bool)
             then
               modify showMainApp ;;
               modify (callLoader "loadRelatedRecords") ;;
               modify (callLoader "loadRecentActivity") ;;
               ret true
             else ret false
           else ret false
       | None => ret false
       end)
      (fun e =>
         modify (paneError "Error parsing saved session:" e) ;;
         ret false) ;;
  if (returned : bool) then ret tt else modify showAuthSection.

(** [simulateAuthentication(instanceUrl)]; [t1] and [t2] are its two
    readings of [Date.now()]. *)
Definition mockSession (instanceUrl : value) (t1 t2 : Z) : value :=
  VObj [("access_token", VStr ("mock_access_token_" ++ string_of_Z t1));
        ("instance_url", instanceUrl);
        ("issued_at", VStr (string_of_Z t2));
        ("signature", VStr "mock_signature");
        ("token_type", VStr "Bearer")].

Definition simulateAuthentication (instanceUrl : value) (t1 t2 : Z)
  : M Pane unit :=
  let mockSession := mockSession instanceUrl t1 t2 in
  modify (set_salesforceSession mockSession) ;;
  modify (set_paneStorage (Some (JSON_stringify h mockSession))) ;;
  modify showMainApp ;;
  modify (callLoader "loadRelatedRecords") ;;
  modify (callLoader "loadRecentActivity") ;;
  modify (alert "Connected to Salesforce successfully! (Demo mode - no real connection yet)").

Definition logoutFromSalesforce : M Pane unit :=
  modify (set_paneStorage None) ;;
  modify (set_salesforceSession VNull) ;;
  modify showAuthSection.

End TaskPane.

(** The units of [getTimeAgo], in milliseconds. *)
Definition msPerMinute : Z := 1000 * 60.

Definition msPerHour : Z := 1000 * 60 * 60.

Definition msPerDay : Z := 1000 * 60 * 60 * 24.

(** [n > 1 ? 's' : ''] *)
Definition plural (n : Z) : string := if n >? 1 then "s" else "".

(** What decides [checkSalesforceAuth]: the stored text is not empty and
    parses to a session with a truthy [access_token] that
    [isTokenExpired] does not report expired. *)
Definition accepted (h : Host) (now : Z) (p : Pane) : bool :=
  match paneStorage p with
  | Some s =>
      negb (s =? "")%string &&
      match JSON_parse h s with
      | Some session =>
          present session "access_token" &&
          match isTokenExpired now session with
          | Ok expired => negb expired
          | Throw _ => false
          end
      | None => false
      end
  | None => false
  end.

(** The number a list of decimal digits writes, after the digits that
    gave [acc]. *)
Fixpoint digitsValue (acc : Z) (d : Decimal.uint) : Z :=
  match d with
  | Decimal.Nil => acc
  | Decimal.D0 d => digitsValue (acc * 10 + 0) d
  | Decimal.D1 d => digitsValue (acc * 10 + 1) d
  | Decimal.D2 d => digitsValue (acc * 10 + 2) d
  | Decimal.D3 d => digitsValue (acc * 10 + 3) d
  | Decimal.D4 d => digitsValue (acc * 10 + 4) d
  | Decimal.D5 d => digitsValue (acc * 10 + 5) d
  | Decimal.D6 d => digitsValue (acc * 10 + 6) d
  | Decimal.D7 d => digitsValue (acc * 10 + 7) d
  | Decimal.D8 d => digitsValue (acc * 10 + 8) d
  | Decimal.D9 d => digitsValue (acc * 10 + 9) d
  end.

(** *** More hosts and states for the examples *)

(** A service that holds the access token T2. *)
Definition signedInT2 : State := mkState (VStr "T2") instance0 None [] [].

Definition noContent : Response := mkResponse 204 "".

Definition mockAt (t : Z) : value := mockSession instance0 t t.

Definition mockHost (t : Z) : Host :=
  mkHost (parseAmong [mockAt t]) stringify rejectingServer.

(** The page before anything is shown. *)
Definition blankPane (stored : option string) : Pane :=
  mkPane VNull true true "" stored [] [] [].

Definition sampleEmail : value :=
  VObj [("subject", VStr "Quote"); ("body", VStr "Please find attached");
        ("from", VStr "x@y.com"); ("to", VStr "me@acme.com")].

(** [v || []], as a group that was assigned only if [v] is truthy. *)
Definition orEmpty (v : value) : value := if truthy v then v else VArr [].

(** *** Hosts on which some of the related-record queries succeed *)

Definition contactsWithAccounts : list value :=
  [VObj [("Id", VStr "0031");
         ("Account", VObj [("Id", VStr "001A"); ("Name", VStr "Acme")])];
   VObj [("Id", VStr "0032");
         ("Account", VObj [("Id", VStr "001A"); ("Name", VStr "Acme")])]].

Definition contactsWithAccountsFound : value :=
  VObj [("records", VArr contactsWithAccounts)].

Definition accountsFound : value :=
  VObj [("records", VArr [VObj [("Id", VStr "001A"); ("Name", VStr "Acme")]])].

Definition opportunitiesFound : value :=
  VObj [("records", VArr [VObj [("Id", VStr "006A"); ("Name", VStr "Q4")]])].

(** A server that answers a request whose URL has one of the listed
    texts with the value beside the first such text, and every other
    request with status 500. *)
Definition answering (table : list (string * value))
  : list Request -> Request -> option Response :=
  fun _ r =>
    match find (fun entry => contains (fst entry) (url r)) table with
    | Some entry => Some (mkResponse 200 (stringify (snd entry)))
    | None => Some (mkResponse 500 "")
    end.

Definition answeringHost (table : list (string * value)) : Host :=
  mkHost (parseAmong (map snd table)) stringify (answering table).

(** Contacts only; contacts and accounts; all but leads. *)
Definition untilContacts : list (string * value) :=
  [("Contact", contactsWithAccountsFound)].

Definition untilAccounts : list (string * value) :=
  [("Contact", contactsWithAccountsFound); ("FROM%20Account", accountsFound)].

Definition untilOpportunities : list (string * value) :=
  [("Contact", contactsWithAccountsFound); ("FROM%20Account", accountsFound);
   ("Opportunity", opportunitiesFound)].

(** * Properties *)

(** ** The built-in functions on small inputs *)

Example parseInt_samples :
  parseInt "1700000000000" = Some 1700000000000
  /\ parseInt "  42px" = Some 42
  /\ parseInt "-0x1F" = Some (-31)
  /\ parseInt "1e3" = Some 1
  /\ parseInt "abc" = NaN
  /\ parseInt "" = NaN
  /\ parseInt "0x" = NaN.
Proof. repeat split. Qed.

Example ToString_samples :
  ToString (VArr [VNum 0; VNull; VNum (-12); VArr [VStr "a"; VObj []]])
  = "0,,-12,a,[object Object]"
  /\ ToString VUndefined = "undefined".
Proof. split; reflexivity. Qed.

Example encodeURIComponent_sample :
  encodeURIComponent "IN ('x@y.com')" = "IN%20('x%40y.com')".
Proof. reflexivity. Qed.

Example quotedList_sample :
  quotedList [VStr "a@b.com"; VStr "c@d.com"] = "'a@b.com','c@d.com'".
Proof. reflexivity. Qed.

Example unique_sample :
  unique [VStr "001A"; VStr "001B"; VStr "001A"] = [VStr "001A"; VStr "001B"].
Proof. reflexivity. Qed.

(** ** The expiry check *)

Lemma isTokenExpired_absent now fs :
  truthy (lookup "issued_at" fs) = false ->
  isTokenExpired now (VObj fs) = Ok true.
Proof.
  intros E. unfold isTokenExpired. simpl. rewrite E. reflexivity.
Qed.

Lemma isTokenExpired_parsed now fs t :
  truthy (lookup "issued_at" fs) = true ->
  parseInt (ToString (lookup "issued_at" fs)) = Some t ->
  isTokenExpired now (VObj fs) = Ok (now - t >? expirationTime).
Proof.
  intros E P. unfold isTokenExpired. simpl. rewrite E, P. reflexivity.
Qed.

Lemma isTokenExpired_older now fs t :
  truthy (lookup "issued_at" fs) = true ->
  parseInt (ToString (lookup "issued_at" fs)) = Some t ->
  now - t > expirationTime ->
  isTokenExpired now (VObj fs) = Ok true.
Proof.
  intros E P G. rewrite (isTokenExpired_parsed now fs t E P).
  f_equal. apply Z.gtb_lt. lia.
Qed.

Lemma isTokenExpired_within now fs t :
  truthy (lookup "issued_at" fs) = true ->
  parseInt (ToString (lookup "issued_at" fs)) = Some t ->
  now - t <= expirationTime ->
  isTokenExpired now (VObj fs) = Ok false.
Proof.
  intros E P G. rewrite (isTokenExpired_parsed now fs t E P).
  f_equal. rewrite Z.gtb_ltb. apply Z.ltb_ge. exact G.
Qed.

Lemma isTokenExpired_NaN now fs :
  truthy (lookup "issued_at" fs) = true ->
  parseInt (ToString (lookup "issued_at" fs)) = NaN ->
  isTokenExpired now (VObj fs) = Ok false.
Proof.
  intros E P. unfold isTokenExpired. simpl. rewrite E, P. reflexivity.
Qed.

(** C2.  A session whose [issued_at] is the text abc, which [parseInt]
    cannot read, is reported as not expired, at every time [now]: the
    difference is NaN and the comparison with the window is false. *)
Theorem isTokenExpired_unparseable_not_expired :
  forall now : Z,
    parseInt "abc" = NaN /\
    isTokenExpired now (VObj [("issued_at", VStr "abc")]) = Ok false.
Proof.
  intros now. split; [reflexivity |].
  apply isTokenExpired_NaN; reflexivity.
Qed.

(** ** Reading the stored session *)

Section Session.

Variable h : Host.

Lemma getSessionInfo_total w :
  exists v, getSessionInfo h w = (Ok v, w).
Proof.
  unfold getSessionInfo, getItem, bind, gets, ret, tryCatch, liftO.
  destruct (localStorage w) as [s |]; simpl.
  - destruct (s =? "")%string; simpl; [eauto |].
    destruct (JSON_parse h s); simpl; eauto.
  - eauto.
Qed.

Lemma getSessionInfo_malformed w s :
  localStorage w = Some s -> JSON_parse h s = None ->
  getSessionInfo h w = (Ok VNull, w).
Proof.
  intros L P.
  unfold getSessionInfo, getItem, bind, gets, ret, tryCatch, liftO.
  cbv beta. rewrite L. simpl.
  destruct (s =? "")%string; simpl; [reflexivity |].
  rewrite P. reflexivity.
Qed.

Lemma resolveCredentials_cached w :
  truthy (accessToken w) = true -> resolveCredentials h w = (Ok tt, w).
Proof.
  intros T. unfold resolveCredentials, bind, gets, ret. simpl.
  rewrite T. reflexivity.
Qed.

Lemma resolveCredentials_malformed w s :
  truthy (accessToken w) = false ->
  localStorage w = Some s -> JSON_parse h s = None ->
  resolveCredentials h w = (Throw SyntaxError, w).
Proof.
  intros T L P. unfold resolveCredentials, bind, gets, liftO. simpl.
  rewrite T. simpl. rewrite L. simpl. rewrite P. reflexivity.
Qed.

(** C8.  On a stored text that [JSON.parse] refuses, the session-info
    accessor answers null, but a call made with no access token in
    memory lets the SyntaxError of the parse through: it does not fail
    with the not-authenticated error, and sends nothing. *)
Theorem apiCall_malformed_session_throws_SyntaxError :
  forall (w : State) (s : string) (endpoint method : string) (data : value),
    truthy (accessToken w) = false ->
    localStorage w = Some s ->
    JSON_parse h s = None ->
    getSessionInfo h w = (Ok VNull, w) /\
    apiCall h endpoint method data w = (Throw SyntaxError, w) /\
    SyntaxError <> NotAuthenticated.
Proof.
  intros w s endpoint method data T L P. split; [| split].
  - exact (getSessionInfo_malformed w s L P).
  - unfold apiCall, bind.
    rewrite (resolveCredentials_malformed w s T L P). reflexivity.
  - discriminate.
Qed.

(** C9, as the code has it.  [isAuthenticated] never throws, leaves the
    state alone, and answers true exactly when the stored text is not
    empty and parses to a value whose [access_token] and [instance_url]
    are both truthy; [issued_at] plays no part.  Hence a usable stored
    session is authenticated. *)
Theorem isAuthenticated_checks_presence_only :
  forall w : State,
    isAuthenticated h w =
      (Ok match storedSession h w with
          | Some v => present v "access_token" && present v "instance_url"
          | None => false
          end, w)
    /\ (forall (now : Z) (v : value),
          storedSession h w = Some v -> usable now v = true ->
          isAuthenticated h w = (Ok true, w)).
Proof.
  intros w.
  assert (E : isAuthenticated h w =
      (Ok match storedSession h w with
          | Some v => present v "access_token" && present v "instance_url"
          | None => false
          end, w)).
  { unfold isAuthenticated, storedSession, getItem, bind, gets, ret,
      tryCatch, liftO, present.
    destruct (localStorage w) as [s |]; simpl; [| reflexivity].
    destruct (s =? "")%string; simpl; [reflexivity |].
    destruct (JSON_parse h s) as [v |]; simpl; [| reflexivity].
    destruct (get v "access_token") as [a | e] eqn:Ga; simpl.
    - destruct (truthy a); simpl; [| reflexivity].
      destruct (get v "instance_url") as [i | e]; simpl; reflexivity.
    - reflexivity. }
  split; [exact E |].
  intros now v S U. rewrite E, S.
  unfold usable in U.
  apply andb_true_iff in U. destruct U as [U _]. rewrite U. reflexivity.
Qed.

End Session.

(** C8 at a concrete state: nothing in memory, the text [{] stored. *)
Lemma apiCall_malformed_session_example :
  getSessionInfo rejectingHost (newService (Some "{"))
    = (Ok VNull, newService (Some "{")) /\
  apiCall rejectingHost "sobjects/User/me" "GET" VNull (newService (Some "{"))
    = (Throw SyntaxError, newService (Some "{")) /\
  SyntaxError <> NotAuthenticated.
Proof.
  apply (apiCall_malformed_session_throws_SyntaxError rejectingHost
           (newService (Some "{")) "{" "sobjects/User/me" "GET" VNull);
    reflexivity.
Defined.

(** C9 as stated fails: a stored session issued at time 0 is not usable
    at time 1700000000000, far beyond the window, and [isAuthenticated]
    answers true. *)
Lemma isAuthenticated_true_for_expired_session :
  let w := newService (Some (stringify expiredSession)) in
  storedSession expiredHost w = Some expiredSession /\
  isAuthenticated expiredHost w = (Ok true, w) /\
  usable 1700000000000 expiredSession = false.
Proof.
  vm_compute. repeat split.
Qed.

Lemma isAuthenticated_usable_example :
  let w := newService (Some (stringify expiredSession)) in
  isAuthenticated expiredHost w = (Ok true, w).
Proof.
  exact (proj2 (isAuthenticated_checks_presence_only expiredHost
                  (newService (Some (stringify expiredSession))))
               7200000 expiredSession eq_refl eq_refl).
Defined.

(** ** Objects stripped of their empty fields *)

Lemma lookup_In k v fs :
  NoDup (keys fs) -> In (k, v) fs -> lookup k fs = v.
Proof.
  induction fs as [| [k' v'] fs IH]; simpl; intros N I; [contradiction |].
  inversion N as [| ? ? Hn N']; subst.
  destruct I as [I | I].
  - inversion I; subst. rewrite String.eqb_refl. reflexivity.
  - destruct (String.eqb_spec k k') as [-> | _].
    + exfalso. apply Hn. unfold keys.
      change k' with (fst (k', v)). apply in_map. exact I.
    + apply IH; assumption.
Qed.

Lemma keys_filter_incl p fs k :
  In k (keys (filter p fs)) -> In k (keys fs).
Proof.
  unfold keys. rewrite !in_map_iff. intros [kv [E I]].
  exists kv. split; [exact E |]. apply filter_In in I. tauto.
Qed.

Lemma NoDup_keys_filter p fs :
  NoDup (keys fs) -> NoDup (keys (filter p fs)).
Proof.
  induction fs as [| kv fs IH]; simpl; intros N; [constructor |].
  inversion N as [| ? ? Hn N']; subst.
  destruct (p kv); simpl; [| auto].
  constructor; [| auto].
  intros I. apply Hn. exact (keys_filter_incl p fs _ I).
Qed.

Lemma filter_twice {A : Type} (f g : A -> bool) (l : list A) :
  filter f (filter g l) = filter (fun x => g x && f x) l.
Proof.
  induction l as [| x l IH]; simpl; [reflexivity |].
  destruct (g x); simpl; [destruct (f x) |]; rewrite IH; reflexivity.
Qed.

(** One round of the [forEach]: the field [key] goes if its value is
    falsy, and every other field stays. *)
Lemma removeEmpty_step key o :
  NoDup (keys o) ->
  (if negb (truthy (lookup key o)) then delete key o else o)
  = filter (fun kv => negb (key =? fst kv)%string || nonEmpty kv) o.
Proof.
  intros N.
  destruct (truthy (lookup key o)) eqn:T; simpl.
  - symmetry. apply forallb_filter_id. apply forallb_forall.
    intros [k v] I. simpl.
    destruct (String.eqb_spec key k) as [-> | _]; [| reflexivity].
    simpl. unfold nonEmpty. simpl.
    rewrite <- (lookup_In k v o N I). exact T.
  - unfold delete. apply filter_ext_in. intros [k v] I. simpl.
    destruct (String.eqb_spec key k) as [-> | _]; [| reflexivity].
    simpl. unfold nonEmpty. simpl.
    rewrite <- (lookup_In k v o N I). rewrite T. reflexivity.
Qed.

Lemma removeEmpty_rounds ks o :
  NoDup (keys o) ->
  fold_left
    (fun o key => if negb (truthy (lookup key o)) then delete key o else o)
    ks o
  = filter (fun kv => negb (existsb (fun key => (key =? fst kv)%string) ks)
                      || nonEmpty kv) o.
Proof.
  revert o. induction ks as [| key ks IH]; intros o N; simpl.
  - symmetry. apply forallb_filter_id. apply forallb_forall. reflexivity.
  - rewrite (removeEmpty_step key o N).
    rewrite IH by (apply NoDup_keys_filter; exact N).
    rewrite filter_twice. apply filter_ext. intros [k v]. simpl.
    destruct (key =? k)%string; simpl;
      destruct (existsb (fun key0 => (key0 =? k)%string) ks);
      destruct (nonEmpty (k, v)); reflexivity.
Qed.

(** With distinct keys, as an object literal has them, the [forEach]
    keeps exactly the fields whose value is truthy, in their order. *)
Lemma removeEmptyFields_filter fs :
  NoDup (keys fs) -> removeEmptyFields fs = filter nonEmpty fs.
Proof.
  intros N. unfold removeEmptyFields. rewrite (removeEmpty_rounds _ _ N).
  apply filter_ext_in. intros [k v] I.
  assert (E : existsb (fun key => (key =? fst (k, v))%string) (keys fs) = true).
  { apply existsb_exists. exists k. split.
    - unfold keys. change k with (fst (k, v)). apply in_map. exact I.
    - simpl. apply String.eqb_refl. }
  rewrite E. reflexivity.
Qed.

Lemma lookup_filter_nonEmpty k fs :
  lookup k (filter nonEmpty fs)
  = match find (fun kv => (k =? fst kv)%string && nonEmpty kv) fs with
    | Some kv => snd kv
    | None => VUndefined
    end.
Proof.
  induction fs as [| [k' v'] fs IH]; simpl; [reflexivity |].
  change (nonEmpty (k', v')) with (truthy v').
  destruct (truthy v') eqn:T; simpl.
  - destruct (k =? k')%string; simpl; [reflexivity | exact IH].
  - rewrite andb_false_r. exact IH.
Qed.

Lemma has_filter_nonEmpty k fs :
  has k (filter nonEmpty fs)
  = existsb (fun kv => (k =? fst kv)%string && nonEmpty kv) fs.
Proof.
  unfold has, keys.
  induction fs as [| [k' v'] fs IH]; simpl; [reflexivity |].
  change (nonEmpty (k', v')) with (truthy v').
  destruct (truthy v') eqn:T; simpl.
  - rewrite IH. rewrite andb_true_r. reflexivity.
  - rewrite andb_false_r. simpl. exact IH.
Qed.

Lemma emptyOrAbsent_falsy v : emptyOrAbsent v = true -> truthy v = false.
Proof.
  destruct v; simpl; try discriminate; try reflexivity.
  intros ->. reflexivity.
Qed.

Lemma get_prop d k : nullish d = false -> get d k = Ok (prop d k).
Proof.
  unfold prop. destruct d; simpl; try discriminate; reflexivity.
Qed.

Lemma In_filter_nonEmpty_truthy k v fs :
  In (k, v) (filter nonEmpty fs) -> In (k, v) fs /\ truthy v = true.
Proof.
  intros I. apply filter_In in I. exact I.
Qed.

Lemma has_filter_In k v fs :
  NoDup (keys fs) -> In (k, v) fs ->
  has k (filter nonEmpty fs) = truthy v.
Proof.
  intros N I. rewrite has_filter_nonEmpty.
  apply eq_true_iff_eq. rewrite existsb_exists. split.
  - intros [[k' v'] [I' E]]. simpl in E.
    apply andb_true_iff in E. destruct E as [E T].
    apply String.eqb_eq in E. subst k'.
    rewrite <- (lookup_In k v fs N I), (lookup_In k v' fs N I'). exact T.
  - intros T. exists (k, v). split; [exact I |]. simpl.
    rewrite String.eqb_refl. exact T.
Qed.

Lemma lookup_filter_In k v fs :
  NoDup (keys fs) -> In (k, v) fs -> truthy v = true ->
  lookup k (filter nonEmpty fs) = v.
Proof.
  intros N I T. apply lookup_In.
  - apply NoDup_keys_filter. exact N.
  - apply filter_In. split; [exact I | exact T].
Qed.

Ltac distinct_keys :=
  unfold keys; simpl;
  repeat (constructor; [simpl; intuition discriminate |]); constructor.

Lemma contactFields_distinct d : NoDup (keys (contactFields d)).
Proof. distinct_keys. Qed.

Lemma leadFields_distinct d : NoDup (keys (leadFields d)).
Proof. distinct_keys. Qed.

Lemma contactRecord_eq d :
  nullish d = false ->
  contactRecord d = Ok (VObj (filter nonEmpty (contactFields d))).
Proof.
  intros N. unfold contactRecord.
  rewrite !(get_prop d _ N).
  rewrite <- (removeEmptyFields_filter _ (contactFields_distinct d)).
  reflexivity.
Qed.

Lemma leadRecord_eq d :
  nullish d = false ->
  leadRecord d = Ok (VObj (filter nonEmpty (leadFields d))).
Proof.
  intros N. unfold leadRecord.
  rewrite !(get_prop d _ N).
  rewrite <- (removeEmptyFields_filter _ (leadFields_distinct d)).
  reflexivity.
Qed.

(** ** The create payloads *)

(** C7.  For an input [d] that is an object (anything but null and
    undefined), the record [createContact] hands to [createRecord] is the
    list of the mapped fields, in order, without those whose input value
    is falsy.  So a field whose input is empty or absent is not a key of
    the payload, a field whose input is truthy is there with the input's
    value, and every field of the payload carries a value that is neither
    empty nor absent.  The input of the specification's example gives
    FirstName and LastName and no Email. *)
Theorem createContact_omits_empty_fields :
  (forall d : value,
     nullish d = false ->
     let payload := filter nonEmpty (contactFields d) in
     contactRecord d = Ok (VObj payload)
     /\ (forall h w,
           createContact h d w = createRecord h "Contact" (VObj payload) w)
     /\ (forall remote input,
           In (remote, input) contactMapping ->
           emptyOrAbsent (prop d input) = true ->
           has remote payload = false)
     /\ (forall remote input,
           In (remote, input) contactMapping ->
           truthy (prop d input) = true ->
           lookup remote payload = prop d input)
     /\ (forall k v,
           In (k, v) payload ->
           emptyOrAbsent v = false /\
           exists input, In (k, input) contactMapping /\ v = prop d input))
  /\ contactRecord (VObj [("firstName", VStr "A"); ("lastName", VStr "B");
                          ("email", VStr "")])
     = Ok (VObj [("FirstName", VStr "A"); ("LastName", VStr "B")]).
Proof.
  split; [| reflexivity].
  intros d N payload.
  assert (M : forall remote input,
             In (remote, input) contactMapping ->
             In (remote, prop d input) (contactFields d)).
  { intros remote input I. unfold contactFields.
    apply in_map_iff. exists (remote, input). split; [reflexivity | exact I]. }
  split; [exact (contactRecord_eq d N) |].
  split.
  { intros h w. unfold createContact, bind, liftO.
    rewrite (contactRecord_eq d N). reflexivity. }
  split.
  { intros remote input I E. unfold payload.
    rewrite (has_filter_In remote (prop d input) _
               (contactFields_distinct d) (M _ _ I)).
    apply emptyOrAbsent_falsy. exact E. }
  split.
  { intros remote input I T.
    exact (lookup_filter_In remote (prop d input) _
             (contactFields_distinct d) (M _ _ I) T). }
  intros k v I. apply In_filter_nonEmpty_truthy in I. destruct I as [I T].
  split.
  - destruct (emptyOrAbsent v) eqn:E; [| reflexivity].
    rewrite (emptyOrAbsent_falsy v E) in T. discriminate.
  - unfold contactFields in I. apply in_map_iff in I.
    destruct I as [[remote input] [E I]]. simpl in E.
    inversion E; subst. exists input. split; [exact I | reflexivity].
Qed.

(** C7 at the input of the specification's example. *)
Lemma createContact_example :
  let d := VObj [("firstName", VStr "A"); ("lastName", VStr "B");
                 ("email", VStr "")] in
  has "Email" (filter nonEmpty (contactFields d)) = false /\
  lookup "FirstName" (filter nonEmpty (contactFields d)) = VStr "A".
Proof.
  set (d := VObj [("firstName", VStr "A"); ("lastName", VStr "B");
                  ("email", VStr "")]).
  pose proof (proj1 createContact_omits_empty_fields d eq_refl) as P.
  destruct P as [_ [_ [Omit [Keep _]]]].
  split.
  - apply (Omit "Email" "email"); [simpl; tauto | reflexivity].
  - apply (Keep "FirstName" "firstName"); [simpl; tauto | reflexivity].
Defined.

(** C10.  For an input [d] that is an object, the record [createLead]
    hands to [createRecord] always has Status and LeadSource: the input's
    [status] and [source] when these are truthy, and otherwise the
    defaults.  Each of the seven other fields is not a key of the payload
    when its input value is empty or absent, and is there with the
    input's value when that is truthy. *)
Theorem createLead_defaults_and_omissions :
  forall d : value,
    nullish d = false ->
    let payload := filter nonEmpty (leadFields d) in
    leadRecord d = Ok (VObj payload)
    /\ (forall h w, createLead h d w = createRecord h "Lead" (VObj payload) w)
    /\ has "Status" payload = true
    /\ lookup "Status" payload
       = (if truthy (prop d "status") then prop d "status"
          else VStr "Open - Not Contacted")
    /\ has "LeadSource" payload = true
    /\ lookup "LeadSource" payload
       = (if truthy (prop d "source") then prop d "source" else VStr "Email")
    /\ (forall remote input,
          In (remote, input) leadMapping ->
          emptyOrAbsent (prop d input) = true ->
          has remote payload = false)
    /\ (forall remote input,
          In (remote, input) leadMapping ->
          truthy (prop d input) = true ->
          lookup remote payload = prop d input).
Proof.
  intros d N payload.
  assert (M : forall remote input,
             In (remote, input) leadMapping ->
             In (remote, prop d input) (leadFields d)).
  { intros remote input I. simpl in I.
    repeat (destruct I as [I | I];
            [inversion I; subst; simpl; tauto |]).
    contradiction. }
  assert (TS : truthy (if truthy (prop d "status") then prop d "status"
                       else defaultStatus) = true).
  { destruct (truthy (prop d "status")) eqn:T; [exact T | reflexivity]. }
  assert (TL : truthy (if truthy (prop d "source") then prop d "source"
                       else defaultLeadSource) = true).
  { destruct (truthy (prop d "source")) eqn:T; [exact T | reflexivity]. }
  assert (IS : In ("Status", if truthy (prop d "status") then prop d "status"
                             else defaultStatus) (leadFields d)).
  { simpl. tauto. }
  assert (IL : In ("LeadSource",
                   if truthy (prop d "source") then prop d "source"
                   else defaultLeadSource) (leadFields d)).
  { simpl. tauto. }
  pose proof (leadFields_distinct d) as D.
  split; [exact (leadRecord_eq d N) |].
  split.
  { intros h w. unfold createLead, bind, liftO.
    rewrite (leadRecord_eq d N). reflexivity. }
  split; [unfold payload; rewrite (has_filter_In _ _ _ D IS); exact TS |].
  split; [exact (lookup_filter_In _ _ _ D IS TS) |].
  split; [unfold payload; rewrite (has_filter_In _ _ _ D IL); exact TL |].
  split; [exact (lookup_filter_In _ _ _ D IL TL) |].
  split.
  - intros remote input I E. unfold payload.
    rewrite (has_filter_In _ _ _ D (M _ _ I)).
    apply emptyOrAbsent_falsy. exact E.
  - intros remote input I T.
    exact (lookup_filter_In _ _ _ D (M _ _ I) T).
Qed.

(** C10 at a lead with a name and an empty e-mail address only. *)
Lemma createLead_example :
  leadRecord (VObj [("lastName", VStr "B"); ("email", VStr "")])
  = Ok (VObj [("LastName", VStr "B");
              ("Status", VStr "Open - Not Contacted");
              ("LeadSource", VStr "Email")]).
Proof.
  exact (proj1 (createLead_defaults_and_omissions
                  (VObj [("lastName", VStr "B"); ("email", VStr "")])
                  eq_refl)).
Defined.

(** ** findRelatedRecords *)

Section RelatedRecords.

Variable h : Host.

(** C6.  For null, for an absent argument and for the empty list,
    [findRelatedRecords] returns the four groups empty and leaves the
    state as it was: no request is sent. *)
Theorem findRelatedRecords_no_addresses :
  forall w : State,
    findRelatedRecords h VNull w = (Ok emptyResults, w)
    /\ findRelatedRecords h VUndefined w = (Ok emptyResults, w)
    /\ findRelatedRecords h (VArr []) w = (Ok emptyResults, w)
    /\ emptyResults = mkResults (VArr []) (VArr []) (VArr []) (VArr []).
Proof.
  intros w. repeat split.
Qed.

Lemma length_truthy v :
  truthy v = true -> exists len, get v "length" = Ok len.
Proof.
  destruct v; simpl; try discriminate; eauto.
Qed.

Lemma findRelatedRecords_total addresses w :
  exists results w', findRelatedRecords h addresses w = (Ok results, w').
Proof.
  unfold findRelatedRecords, withLocal, bind, ret, gets, liftO, tryCatch,
    zoom, modify.
  destruct (truthy addresses) eqn:T; simpl.
  - destruct (length_truthy addresses T) as [len ->].
    destruct (isZero len); simpl; [eauto |].
    destruct (findRelatedRecords_try h addresses (emptyResults, w))
      as [[u | e] [r w']]; simpl; eauto.
  - eauto.
Qed.

Lemma nonempty_not_zero (emails : list value) :
  emails <> [] -> isZero (VNum (Z.of_nat (List.length emails))) = false.
Proof.
  destruct emails; [congruence |]. reflexivity.
Qed.

Lemma findRelatedRecords_nonempty emails w :
  emails <> [] ->
  findRelatedRecords h (VArr emails) w
  = match findRelatedRecords_try h (VArr emails) (emptyResults, w) with
    | (Ok _, (results, w')) => (Ok results, w')
    | (Throw e, (results, w')) =>
        (Ok results, add_console "Error finding related records:" e w')
    end.
Proof.
  intros N.
  unfold findRelatedRecords, withLocal, bind, ret, gets, liftO, tryCatch,
    zoom, modify.
  change (get (VArr emails) "length")
    with (Ok (A := value) (VNum (Z.of_nat (List.length emails)))).
  cbn [truthy negb]. rewrite (nonempty_not_zero emails N).
  destruct (findRelatedRecords_try h (VArr emails) (emptyResults, w))
    as [[u | e] [r w']]; reflexivity.
Qed.

(** C1, as the code has it.  For a non-empty list of addresses
    [findRelatedRecords] never throws.  The four queries share one [try]
    block, so when the Contact query fails nothing is sent after it, the
    Lead query included, and every group comes back empty; the failure
    goes to the console.  A group assigned before a later query fails is
    returned: the contacts when the Account query fails; the contacts and
    the accounts when the Opportunity query fails; the contacts, the
    accounts and the opportunities when the Lead query fails; and the
    contacts when no contact has an account and the Lead query fails. *)
Theorem findRelatedRecords_absorbs_failures :
  forall (emails : list value) (w : State),
    emails <> [] ->
    (exists results w',
        findRelatedRecords h (VArr emails) w = (Ok results, w'))
    /\ (forall e w1,
          query h (contactQuery (quotedList emails)) w = (Throw e, w1) ->
          findRelatedRecords h (VArr emails) w
          = (Ok emptyResults,
             add_console "Error finding related records:" e w1))
    /\ (forall contactResult w1 records items e w2,
          query h (contactQuery (quotedList emails)) w
            = (Ok contactResult, w1) ->
          get contactResult "records" = Ok records ->
          truthy records = true ->
          records = VArr items ->
          filterM hasAccountId items = Ok [] ->
          query h (leadQuery (quotedList emails)) w1 = (Throw e, w2) ->
          findRelatedRecords h (VArr emails) w
          = (Ok (set_contacts records emptyResults),
             add_console "Error finding related records:" e w2))
    /\ (forall contactResult w1 items kept accountIds,
          query h (contactQuery (quotedList emails)) w
            = (Ok contactResult, w1) ->
          get contactResult "records" = Ok (VArr items) ->
          filterM hasAccountId items = Ok kept ->
          mapM accountIdOf kept = Ok accountIds ->
          accountIds <> [] ->
          let accountList := quotedList (unique accountIds) in
          let withContacts := set_contacts (VArr items) emptyResults in
          (forall e w2,
              query h (accountQuery accountList) w1 = (Throw e, w2) ->
              findRelatedRecords h (VArr emails) w
              = (Ok withContacts,
                 add_console "Error finding related records:" e w2))
          /\ (forall accountResult w2 accountRecords,
                query h (accountQuery accountList) w1
                  = (Ok accountResult, w2) ->
                get accountResult "records" = Ok accountRecords ->
                let withAccounts :=
                  set_accounts (orEmpty accountRecords) withContacts in
                (forall e w3,
                    query h (oppQuery accountList) w2 = (Throw e, w3) ->
                    findRelatedRecords h (VArr emails) w
                    = (Ok withAccounts,
                       add_console "Error finding related records:" e w3))
                /\ (forall oppResult w3 oppRecords e w4,
                      query h (oppQuery accountList) w2
                        = (Ok oppResult, w3) ->
                      get oppResult "records" = Ok oppRecords ->
                      query h (leadQuery (quotedList emails)) w3
                        = (Throw e, w4) ->
                      findRelatedRecords h (VArr emails) w
                      = (Ok (set_opportunities (orEmpty oppRecords)
                               withAccounts),
                         add_console "Error finding related records:"
                           e w4)))).
Proof.
  intros emails w N. split; [apply findRelatedRecords_total |]. split.
  { intros e w1 Q. rewrite (findRelatedRecords_nonempty emails w N).
    unfold findRelatedRecords_try, bind, liftO, zoom. simpl.
    rewrite Q. reflexivity. }
  split.
  { intros contactResult w1 records items e w2 Q G T A F L.
    rewrite (findRelatedRecords_nonempty emails w N).
    unfold findRelatedRecords_try, bind, liftO, zoom, assignLocal, modify,
      ret.
    simpl. rewrite Q. rewrite G. rewrite T. subst records. simpl.
    rewrite F. simpl. rewrite L. reflexivity. }
  intros cr w1 items kept ids Q G F M NE accountList withContacts.
  assert (P : (0 <? Z.of_nat (List.length ids)) = true).
  { apply Z.ltb_lt. destruct ids; [congruence |]. simpl. lia. }
  assert (Start :
            findRelatedRecords h (VArr emails) w
            = match
                (accountResult <- zoom (query h (accountQuery accountList)) ;;
                 accountRecords <- liftO (get accountResult "records") ;;
                 (if truthy accountRecords
                  then assignLocal (set_accounts accountRecords)
                  else ret tt) ;;
                 oppResult <- zoom (query h (oppQuery accountList)) ;;
                 oppRecords <- liftO (get oppResult "records") ;;
                 (if truthy oppRecords
                  then assignLocal (set_opportunities oppRecords)
                  else ret tt) ;;
                 leadResult <- zoom (query h (leadQuery (quotedList emails))) ;;
                 leadRecords <- liftO (get leadResult "records") ;;
                 if truthy leadRecords
                 then assignLocal (set_leads leadRecords)
                 else ret tt)%js (withContacts, w1)
              with
              | (Ok _, (results, w')) => (Ok results, w')
              | (Throw e, (results, w')) =>
                  (Ok results,
                   add_console "Error finding related records:" e w')
              end).
  { rewrite (findRelatedRecords_nonempty emails w N).
    unfold findRelatedRecords_try, bind, liftO, zoom, assignLocal, modify,
      ret.
    cbn [asArray fst snd]. rewrite Q, G. cbn [truthy asArray fst snd].
    rewrite F, M, P. fold accountList. cbn [fst snd]. fold withContacts.
    destruct (query h (accountQuery accountList) w1) as [[ar | e] w2];
      [| reflexivity].
    destruct (get ar "records") as [arec | e]; [| reflexivity].
    destruct (truthy arec); cbn [fst snd];
      (destruct (query h (oppQuery accountList) w2) as [[opr | e] w3];
       [| reflexivity]);
      (destruct (get opr "records") as [orec | e]; [| reflexivity]);
      destruct (truthy orec); reflexivity. }
  split.
  { intros e w2 QA. rewrite Start.
    unfold bind, liftO, zoom, assignLocal, modify, ret. cbn [fst snd].
    rewrite QA. reflexivity. }
  intros ar w2 arec QA GA withAccounts.
  split.
  { intros e w3 QO. rewrite Start.
    unfold bind, liftO, zoom, assignLocal, modify, ret. cbn [fst snd].
    rewrite QA, GA. unfold withAccounts, orEmpty.
    destruct (truthy arec); cbn [fst snd]; rewrite QO; reflexivity. }
  intros opr w3 orec e w4 QO GO L.
  rewrite Start.
  unfold bind, liftO, zoom, assignLocal, modify, ret. cbn [fst snd].
  rewrite QA, GA. unfold withAccounts, orEmpty.
  destruct (truthy arec); cbn [fst snd]; rewrite QO, GO;
    destruct (truthy orec); cbn [fst snd]; rewrite L; reflexivity.
Qed.

End RelatedRecords.

(** ** apiCall: refresh and retry *)

Section Calls.

Variable h : Host.

Ltac cases :=
  repeat match goal with
         | |- context [match ?x with _ => _ end] => destruct x eqn:?; simpl
         end.

Lemma resolveCredentials_keeps w :
  sent (snd (resolveCredentials h w)) = sent w
  /\ localStorage (snd (resolveCredentials h w)) = localStorage w.
Proof.
  unfold resolveCredentials, bind, gets, ret, liftO, modify, throw.
  simpl. cases;
    repeat match goal with
           | H : (if ?b then _ else _) _ = (_, _) |- _ =>
               destruct b; inversion H; subst; clear H
           end;
    auto.
Qed.

(** [apiCall], branch by branch. *)
Lemma apiCall_branches endpoint method data w :
  apiCall h endpoint method data w =
  match resolveCredentials h w with
  | (Throw e, w0) => (Throw e, w0)
  | (Ok _, w0) =>
      let original := apiRequest h endpoint method data w0 in
      let w1 := add_sent original w0 in
      match remote h (sent w0) original with
      | None => (Throw TypeError, w1)
      | Some r0 =>
          if status r0 =? 401
          then
            match refreshToken h VUndefined w1 with
            | (Throw _, w2) => (Throw AuthExpired, w2)
            | (Ok _, w2) =>
                let retry :=
                  withAuthorization (bearer (accessToken w2)) original in
                let w3 := add_sent retry w2 in
                match remote h (sent w2) retry with
                | None => (Throw AuthExpired, w3)
                | Some r2 =>
                    if ok r2
                    then match JSON_parse h (text r2) with
                         | Some v => (Ok v, w3)
                         | None => (Throw AuthExpired, w3)
                         end
                    else (Throw AuthExpired, w3)
                end
            end
          else if ok r0
          then if status r0 =? 204 then (Ok (VObj []), w1)
               else match JSON_parse h (text r0) with
                    | Some v => (Ok v, w1)
                    | None => (Throw SyntaxError, w1)
                    end
          else (Throw (JsError ("API call failed: "
                                ++ string_of_Z (status r0)
                                ++ " - " ++ text r0)), w1)
      end
  end.
Proof.
  unfold apiCall, bind.
  destruct (resolveCredentials h w) as [[u | e] w0]; [| reflexivity].
  unfold gets, fetch, tryCatch, bind, throw, ret, liftO, json.
  cbv zeta.
  destruct (remote h (sent w0) (apiRequest h endpoint method data w0))
    as [r0 |]; [| reflexivity].
  destruct (status r0 =? 401).
  - destruct (refreshToken h VUndefined
                (add_sent (apiRequest h endpoint method data w0) w0))
      as [[td | e] w2]; [| reflexivity].
    destruct (remote h (sent w2)
                (withAuthorization (bearer (accessToken w2))
                   (apiRequest h endpoint method data w0)))
      as [r2 |]; [| reflexivity].
    destruct (ok r2); simpl; [| reflexivity].
    destruct (JSON_parse h (text r2)); reflexivity.
  - destruct (ok r0); simpl; [| reflexivity].
    destruct (status r0 =? 204); [reflexivity |].
    destruct (JSON_parse h (text r0)); reflexivity.
Qed.

(** [refreshToken] up to the answer to its request. *)
Lemma refreshToken_no_token c w session :
  parseStored h (localStorage w) = Ok session ->
  truthy session && present session "refresh_token" = false ->
  refreshToken h c w = (Throw NoRefreshToken, w).
Proof.
  intros P T.
  unfold refreshToken, bind, gets, liftO, ret, throw. cbv beta.
  rewrite P. unfold present in T.
  destruct (truthy session) eqn:TS; simpl in *; [| reflexivity].
  destruct (get session "refresh_token") as [rt | e] eqn:G.
  - rewrite T. reflexivity.
  - destruct session; simpl in *; discriminate.
Qed.

Lemma refreshToken_refused c w session r :
  parseStored h (localStorage w) = Ok session ->
  truthy session && present session "refresh_token" = true ->
  remote h (sent w)
    (refreshRequest (instanceUrl w) (prop session "refresh_token") c)
    = Some r ->
  ok r = false ->
  refreshToken h c w
  = (Throw RefreshExpired,
     set_localStorage None
       (add_sent (refreshRequest (instanceUrl w)
                    (prop session "refresh_token") c) w)).
Proof.
  intros P T F K.
  unfold refreshToken, bind, gets, liftO, ret, throw, fetch, modify.
  cbv beta. rewrite P.
  apply andb_true_iff in T. destruct T as [TS TR]. rewrite TS.
  unfold present in TR. unfold prop in F |- *.
  destruct (get session "refresh_token") as [rt | e]; [| discriminate].
  rewrite TR. simpl. rewrite F. rewrite K. reflexivity.
Qed.

(** What [refreshToken] sends: nothing when it fails before its request,
    and otherwise the one refresh request.  It leaves [instanceUrl]. *)
Lemma refreshToken_trace c w :
  sent (snd (refreshToken h c w)) = sent w
  \/ exists t, isRefresh t = true
               /\ sent (snd (refreshToken h c w)) = (sent w ++ [t])%list.
Proof.
  unfold refreshToken, bind, gets, liftO, ret, throw, fetch, modify.
  cbv beta.
  destruct (parseStored h (localStorage w)) as [session | e];
    [| left; reflexivity].
  destruct (truthy session) eqn:TS; simpl; [| left; reflexivity].
  destruct (get session "refresh_token") as [rt | e]; simpl;
    [| left; reflexivity].
  destruct (truthy rt); simpl; [| left; reflexivity].
  right. exists (refreshRequest (instanceUrl w) rt c).
  split; [reflexivity |].
  destruct (remote h (sent w) (refreshRequest (instanceUrl w) rt c))
    as [r |]; simpl; [| reflexivity].
  destruct (ok r); simpl; [| reflexivity].
  cases; reflexivity.
Qed.

Lemma isRefresh_apiRequest endpoint method data w :
  isRefresh (apiRequest h endpoint method data w) = false.
Proof.
  unfold isRefresh, apiRequest. simpl.
  destruct (truthy data && sendsBody method); reflexivity.
Qed.

Lemma isRefresh_withAuthorization a r :
  isRefresh (withAuthorization a r) = isRefresh r.
Proof. reflexivity. Qed.

(** The first answer is 204: the call returns the empty object without
    reading the body. *)
Lemma apiCall_204 endpoint method data w w0 r0 :
  resolveCredentials h w = (Ok tt, w0) ->
  remote h (sent w0) (apiRequest h endpoint method data w0) = Some r0 ->
  status r0 = 204 ->
  apiCall h endpoint method data w
  = (Ok (VObj []), add_sent (apiRequest h endpoint method data w0) w0).
Proof.
  intros R F S. rewrite apiCall_branches, R. cbv zeta. rewrite F.
  unfold ok. rewrite S. reflexivity.
Qed.

(** C3, as the code has it.  Let the original request be answered 401.
    Whenever the refresh then fails, the call fails with the
    authentication-expired error.  The stored session has been removed
    by then if the refresh request was sent and refused; it is still
    there if the refresh failed for want of a stored refresh token, in
    which case no refresh request is sent.  If the refresh succeeds and
    the retry is refused, the call fails with the same error. *)
Theorem apiCall_401_failures_are_AuthExpired :
  forall (endpoint method : string) (data : value) (w w0 : State)
         (r0 : Response),
    resolveCredentials h w = (Ok tt, w0) ->
    let original := apiRequest h endpoint method data w0 in
    let w1 := add_sent original w0 in
    remote h (sent w0) original = Some r0 ->
    status r0 = 401 ->
    (forall e w2,
        refreshToken h VUndefined w1 = (Throw e, w2) ->
        apiCall h endpoint method data w = (Throw AuthExpired, w2))
    /\ (forall session r1,
          parseStored h (localStorage w0) = Ok session ->
          truthy session && present session "refresh_token" = true ->
          remote h (sent w1)
            (refreshRequest (instanceUrl w0) (prop session "refresh_token")
               VUndefined) = Some r1 ->
          ok r1 = false ->
          exists w2,
            apiCall h endpoint method data w = (Throw AuthExpired, w2)
            /\ localStorage w2 = None)
    /\ (forall session,
          parseStored h (localStorage w0) = Ok session ->
          truthy session && present session "refresh_token" = false ->
          apiCall h endpoint method data w = (Throw AuthExpired, w1)
          /\ localStorage w1 = localStorage w)
    /\ (forall tokenData w2 r2,
          refreshToken h VUndefined w1 = (Ok tokenData, w2) ->
          let retry :=
            withAuthorization (bearer (accessToken w2)) original in
          remote h (sent w2) retry = Some r2 ->
          ok r2 = false ->
          apiCall h endpoint method data w
          = (Throw AuthExpired, add_sent retry w2)).
Proof.
  intros endpoint method data w w0 r0 R original w1 F S.
  assert (E : apiCall h endpoint method data w =
              match refreshToken h VUndefined w1 with
              | (Throw _, w2) => (Throw AuthExpired, w2)
              | (Ok _, w2) =>
                  let retry :=
                    withAuthorization (bearer (accessToken w2)) original in
                  let w3 := add_sent retry w2 in
                  match remote h (sent w2) retry with
                  | None => (Throw AuthExpired, w3)
                  | Some r2 =>
                      if ok r2
                      then match JSON_parse h (text r2) with
                           | Some v => (Ok v, w3)
                           | None => (Throw AuthExpired, w3)
                           end
                      else (Throw AuthExpired, w3)
                  end
              end).
  { rewrite apiCall_branches, R. cbv zeta. fold original. rewrite F, S.
    reflexivity. }
  split; [| split; [| split]].
  - intros e w2 RT. rewrite E, RT. reflexivity.
  - intros session r1 P T F1 K.
    pose proof (refreshToken_refused VUndefined w1 session r1 P T F1 K) as RT.
    eexists. split; [rewrite E, RT; reflexivity | reflexivity].
  - intros session P T.
    pose proof (refreshToken_no_token VUndefined w1 session P T) as RT.
    split; [rewrite E, RT; reflexivity |].
    pose proof (resolveCredentials_keeps w) as [_ L]. rewrite R in L.
    exact L.
  - intros tokenData w2 r2 RT retry F2 K. rewrite E, RT. cbv zeta.
    fold retry. rewrite F2, K. reflexivity.
Qed.

(** C5.  The original request is answered 401, the refresh succeeds and
    the retry is answered 204 with the empty body such an answer has:
    the retry path reads the body as JSON all the same, the parse fails,
    and the call fails with the authentication-expired error where the
    first path returns the empty object. *)
Theorem apiCall_retry_204_is_parsed :
  forall (endpoint method : string) (data : value) (w w0 w2 : State)
         (r0 r2 : Response) (tokenData : value),
    resolveCredentials h w = (Ok tt, w0) ->
    let original := apiRequest h endpoint method data w0 in
    remote h (sent w0) original = Some r0 ->
    status r0 = 401 ->
    refreshToken h VUndefined (add_sent original w0) = (Ok tokenData, w2) ->
    let retry := withAuthorization (bearer (accessToken w2)) original in
    remote h (sent w2) retry = Some r2 ->
    status r2 = 204 ->
    text r2 = "" ->
    JSON_parse h "" = None ->
    apiCall h endpoint method data w
    = (Throw AuthExpired, add_sent retry w2).
Proof.
  intros endpoint method data w w0 w2 r0 r2 tokenData R original F S RT
    retry F2 S2 B P.
  rewrite apiCall_branches, R. cbv zeta. fold original. rewrite F, S.
  simpl. rewrite RT. fold retry. rewrite F2.
  unfold ok. rewrite S2, B, P. reflexivity.
Qed.

(** C4.  What one call sends is the original request; or, when that was
    answered 401, the original request, then at most one refresh
    request, then at most one retry, which is the original request with
    another Authorization header.  So a call makes at most two attempts
    at its request, the second only after a 401 on the first, and at
    most one token exchange between them. *)
Theorem apiCall_at_most_two_attempts :
  forall (endpoint method : string) (data : value) (w : State),
    let w0 := snd (resolveCredentials h w) in
    let original := apiRequest h endpoint method data w0 in
    exists l : list Request,
      sent (snd (apiCall h endpoint method data w)) = (sent w ++ l)%list
      /\ (l = []
          \/ l = [original]
          \/ exists r0,
               remote h (sent w0) original = Some r0
               /\ status r0 = 401
               /\ exists t,
                    isRefresh t = true
                    /\ (l = [original; t]
                        \/ exists a,
                             l = [original; t; withAuthorization a original]))
      /\ (List.length (attempts l) <= 2)%nat
      /\ (List.length (filter isRefresh l) <= 1)%nat.
Proof.
  intros endpoint method data w w0 original.
  pose proof (resolveCredentials_keeps w) as [K _]. fold w0 in K.
  pose proof (isRefresh_apiRequest endpoint method data w0) as NR.
  fold original in NR.
  assert (Count1 : (List.length (attempts [original]) <= 2)%nat
                   /\ (List.length (filter isRefresh [original]) <= 1)%nat).
  { unfold attempts. simpl. rewrite NR. simpl. lia. }
  assert (Count2 : forall t, isRefresh t = true ->
            (List.length (attempts [original; t]) <= 2)%nat
            /\ (List.length (filter isRefresh [original; t]) <= 1)%nat).
  { intros t T. unfold attempts. simpl. rewrite NR, T. simpl. lia. }
  assert (Count3 : forall t a, isRefresh t = true ->
            (List.length (attempts [original; t;
                                    withAuthorization a original]) <= 2)%nat
            /\ (List.length (filter isRefresh
                               [original; t;
                                withAuthorization a original]) <= 1)%nat).
  { intros t a T. unfold attempts. simpl.
    rewrite isRefresh_withAuthorization, NR, T. simpl. lia. }
  rewrite apiCall_branches.
  destruct (resolveCredentials h w) as [[u | e] w0'] eqn:R;
    simpl in w0; subst w0.
  2:{ exists []. simpl. rewrite app_nil_r.
      repeat split; auto; simpl; lia. }
  cbv zeta. fold original.
  destruct (remote h (sent w0') original) as [r0 |] eqn:F.
  2:{ exists [original]. simpl. rewrite K. tauto. }
  destruct (status r0 =? 401) eqn:S.
  2:{ exists [original].
      assert (sent (add_sent original w0') = (sent w ++ [original])%list)
        by (simpl; rewrite K; reflexivity).
      destruct (ok r0); [destruct (status r0 =? 204);
                         [| destruct (JSON_parse h (text r0))] |];
        simpl; tauto. }
  apply Z.eqb_eq in S.
  pose proof (refreshToken_trace VUndefined (add_sent original w0')) as T.
  destruct (refreshToken h VUndefined (add_sent original w0'))
    as [[td | e] w2] eqn:RT; simpl in T.
  - destruct T as [T | [t [Rt T]]].
    + (* a refresh that succeeds has sent its request *)
      exfalso. clear - RT T.
      unfold refreshToken, bind, gets, liftO, ret, throw, fetch, modify in RT.
      cbv beta in RT.
      destruct (parseStored h (localStorage (add_sent original w0')));
        [| discriminate].
      destruct (truthy a); simpl in RT; [| discriminate].
      destruct (get a "refresh_token"); simpl in RT; [| discriminate].
      destruct (truthy a0); simpl in RT; [| discriminate].
      destruct (remote h (sent w0' ++ [original])
                  (refreshRequest (instanceUrl w0') a0 VUndefined));
        simpl in RT; [| discriminate].
      destruct (ok r); simpl in RT; [| discriminate].
      assert (L : List.length (sent w2)
                  = S (List.length (sent w0' ++ [original]))).
      { revert RT. cases; intros RT; inversion RT; subst; simpl;
          rewrite !length_app; simpl; lia. }
      rewrite T in L. lia.
    + exists [original; t; withAuthorization (bearer (accessToken w2)) original].
      assert (sent (add_sent (withAuthorization (bearer (accessToken w2))
                                original) w2)
              = (sent w ++ [original; t;
                            withAuthorization (bearer (accessToken w2))
                              original])%list).
      { simpl. rewrite T. simpl. rewrite K. rewrite <- !app_assoc.
        reflexivity. }
      assert (Shape : forall (o : outcome value),
                 sent (snd (o, add_sent (withAuthorization
                                           (bearer (accessToken w2))
                                           original) w2))
                 = (sent w ++ [original; t;
                               withAuthorization (bearer (accessToken w2))
                                 original])%list) by (intros; assumption).
      split.
      { destruct (remote h (sent w2)
                    (withAuthorization (bearer (accessToken w2)) original))
          as [r2 |]; [destruct (ok r2);
                      [destruct (JSON_parse h (text r2)) |] |];
          apply Shape. }
      split; [| exact (Count3 t _ Rt)].
      right. right. exists r0. repeat split; auto.
      exists t. split; [exact Rt |]. right. eexists. reflexivity.
  - destruct T as [T | [t [Rt T]]].
    + exists [original]. simpl. rewrite T. simpl. rewrite K. tauto.
    + exists [original; t]. simpl. rewrite T. simpl. rewrite K.
      rewrite <- app_assoc. simpl.
      split; [reflexivity |]. split; [| exact (Count2 t Rt)].
      right. right. exists r0. repeat split; auto.
      exists t. split; [exact Rt |]. left. reflexivity.
Qed.

End Calls.

(** ** The statements at concrete hosts *)

(** C1 as stated fails.  On a server where the Contact query fails with
    status 500 and the Lead query, sent at any time, succeeds with one
    lead, [findRelatedRecords(["x@y.com"])] returns an empty [leads]
    group: the Lead query is never sent. *)
Lemma findRelatedRecords_leads_empty_after_contact_failure :
  let emails := [VStr "x@y.com"] in
  let failed := query leadsOnlyHost (contactQuery (quotedList emails))
                  signedIn in
  fst failed = Throw (JsError "API call failed: 500 - ")
  /\ fst (query leadsOnlyHost (leadQuery (quotedList emails)) (snd failed))
     = Ok leadsFound
  /\ prop leadsFound "records"
     = VArr [VObj [("Id", VStr "00Q1"); ("Email", VStr "x@y.com")]]
  /\ fst (findRelatedRecords leadsOnlyHost (VArr emails) signedIn)
     = Ok (mkResults (VArr []) (VArr []) (VArr []) (VArr []))
  /\ List.length
       (sent (snd (findRelatedRecords leadsOnlyHost (VArr emails) signedIn)))
     = 1%nat.
Proof.
  vm_compute. repeat split.
Qed.

(** C1 as the code has it, on that server, on one where only the
    Contact query succeeds, and on servers where the queries succeed up
    to the Contact, the Account and the Opportunity query. *)
Lemma findRelatedRecords_absorbs_failures_example :
  let emails := [VStr "x@y.com"] in
  fst (findRelatedRecords leadsOnlyHost (VArr emails) signedIn)
    = Ok emptyResults
  /\ fst (findRelatedRecords contactsOnlyHost (VArr emails) signedIn)
     = Ok (set_contacts (prop contactsFound "records") emptyResults)
  /\ fst (findRelatedRecords (answeringHost untilContacts) (VArr emails)
            signedIn)
     = Ok (mkResults (VArr contactsWithAccounts) (VArr []) (VArr [])
                     (VArr []))
  /\ fst (findRelatedRecords (answeringHost untilAccounts) (VArr emails)
            signedIn)
     = Ok (mkResults (VArr contactsWithAccounts) (VArr [])
                     (prop accountsFound "records") (VArr []))
  /\ fst (findRelatedRecords (answeringHost untilOpportunities)
            (VArr emails) signedIn)
     = Ok (mkResults (VArr contactsWithAccounts) (VArr [])
                     (prop accountsFound "records")
                     (prop opportunitiesFound "records")).
Proof.
  intros emails.
  assert (N : emails <> []) by discriminate.
  assert (Ids : [VStr "001A"; VStr "001A"] <> []) by discriminate.
  split; [| split; [| split; [| split]]].
  - pose proof (findRelatedRecords_absorbs_failures leadsOnlyHost emails
                  signedIn N) as [_ [Fails _]].
    erewrite Fails; [reflexivity |].
    vm_compute. reflexivity.
  - pose proof (findRelatedRecords_absorbs_failures contactsOnlyHost emails
                  signedIn N) as [_ [_ [Kept _]]].
    erewrite (Kept contactsFound _ (prop contactsFound "records"));
      [reflexivity | vm_compute; reflexivity | reflexivity | reflexivity
       | reflexivity | reflexivity | vm_compute; reflexivity].
  - set (host := answeringHost untilContacts).
    set (w1 := snd (query host (contactQuery (quotedList emails)) signedIn)).
    assert (Q : query host (contactQuery (quotedList emails)) signedIn
                = (Ok contactsWithAccountsFound, w1))
      by (vm_compute; reflexivity).
    pose proof (proj2 (proj2 (proj2 (findRelatedRecords_absorbs_failures
                                       host emails signedIn N)))
                  contactsWithAccountsFound w1 contactsWithAccounts
                  contactsWithAccounts [VStr "001A"; VStr "001A"]
                  Q eq_refl eq_refl eq_refl Ids) as [AccountFails _].
    set (failed := query host (accountQuery "'001A'") w1).
    assert (QA : query host (accountQuery "'001A'") w1
                 = (Throw (JsError "API call failed: 500 - "), snd failed))
      by (vm_compute; reflexivity).
    rewrite (AccountFails _ _ QA). reflexivity.
  - set (host := answeringHost untilAccounts).
    set (w1 := snd (query host (contactQuery (quotedList emails)) signedIn)).
    set (w2 := snd (query host (accountQuery "'001A'") w1)).
    assert (Q : query host (contactQuery (quotedList emails)) signedIn
                = (Ok contactsWithAccountsFound, w1))
      by (vm_compute; reflexivity).
    assert (QA : query host (accountQuery "'001A'") w1
                 = (Ok accountsFound, w2))
      by (vm_compute; reflexivity).
    pose proof (proj2 (proj2 (proj2 (findRelatedRecords_absorbs_failures
                                       host emails signedIn N)))
                  contactsWithAccountsFound w1 contactsWithAccounts
                  contactsWithAccounts [VStr "001A"; VStr "001A"]
                  Q eq_refl eq_refl eq_refl Ids) as [_ Later].
    destruct (Later accountsFound w2 (prop accountsFound "records")
                QA eq_refl) as [OpportunityFails _].
    set (failed := query host (oppQuery "'001A'") w2).
    assert (QO : query host (oppQuery "'001A'") w2
                 = (Throw (JsError "API call failed: 500 - "), snd failed))
      by (vm_compute; reflexivity).
    rewrite (OpportunityFails _ _ QO). reflexivity.
  - set (host := answeringHost untilOpportunities).
    set (w1 := snd (query host (contactQuery (quotedList emails)) signedIn)).
    set (w2 := snd (query host (accountQuery "'001A'") w1)).
    set (w3 := snd (query host (oppQuery "'001A'") w2)).
    assert (Q : query host (contactQuery (quotedList emails)) signedIn
                = (Ok contactsWithAccountsFound, w1))
      by (vm_compute; reflexivity).
    assert (QA : query host (accountQuery "'001A'") w1
                 = (Ok accountsFound, w2))
      by (vm_compute; reflexivity).
    assert (QO : query host (oppQuery "'001A'") w2
                 = (Ok opportunitiesFound, w3))
      by (vm_compute; reflexivity).
    pose proof (proj2 (proj2 (proj2 (findRelatedRecords_absorbs_failures
                                       host emails signedIn N)))
                  contactsWithAccountsFound w1 contactsWithAccounts
                  contactsWithAccounts [VStr "001A"; VStr "001A"]
                  Q eq_refl eq_refl eq_refl Ids) as [_ Later].
    destruct (Later accountsFound w2 (prop accountsFound "records")
                QA eq_refl) as [_ LeadFails].
    set (failed := query host (leadQuery (quotedList emails)) w3).
    assert (QL : query host (leadQuery (quotedList emails)) w3
                 = (Throw (JsError "API call failed: 500 - "), snd failed))
      by (vm_compute; reflexivity).
    rewrite (LeadFails opportunitiesFound w3
               (prop opportunitiesFound "records") _ _ QO eq_refl QL).
    reflexivity.
Defined.

(** C3 as stated fails.  With the session the task pane stores, which
    has no refresh token, a 401 makes the refresh fail and the call fail
    with the authentication-expired error, and the stored session is
    still there. *)
Lemma apiCall_refresh_failure_keeps_stored_session :
  let stored := Some (stringify demoSession) in
  let w0 := mkState (VStr "T1") instance0 stored [] [] in
  let original := apiRequest rejectingHost "sobjects/User/me" "GET" VNull w0 in
  let w1 := add_sent original w0 in
  resolveCredentials rejectingHost (newService stored) = (Ok tt, w0)
  /\ remote rejectingHost (sent w0) original = Some (mkResponse 401 "")
  /\ refreshToken rejectingHost VUndefined w1 = (Throw NoRefreshToken, w1)
  /\ apiCall rejectingHost "sobjects/User/me" "GET" VNull (newService stored)
     = (Throw AuthExpired, w1)
  /\ localStorage w1 = stored
  /\ stored <> None.
Proof.
  vm_compute. repeat split. discriminate.
Qed.

(** C3 as the code has it: the refresh request refused (two 401 in a
    row), no refresh token stored, and the retry refused. *)
Lemma apiCall_401_failures_example :
  let full := newService (Some (stringify fullSession)) in
  let demo := newService (Some (stringify demoSession)) in
  (exists w2,
      apiCall rejectingHost "sobjects/User/me" "GET" VNull full
        = (Throw AuthExpired, w2)
      /\ localStorage w2 = None)
  /\ (exists w1,
        apiCall rejectingHost "sobjects/User/me" "GET" VNull demo
          = (Throw AuthExpired, w1)
        /\ localStorage w1 = localStorage demo)
  /\ fst (apiCall (refreshingHost (mkResponse 401 ""))
            "sobjects/User/me" "GET" VNull full)
     = Throw AuthExpired.
Proof.
  intros full demo.
  assert (R : forall host session,
             In session knownTexts ->
             JSON_parse host = parseAmong knownTexts ->
             truthy (prop session "access_token") = true ->
             resolveCredentials host
               (newService (Some (stringify session)))
             = (Ok tt, mkState (prop session "access_token")
                         (prop session "instance_url")
                         (Some (stringify session)) [] [])).
  { intros host session I P T. simpl in I.
    unfold resolveCredentials, bind, gets, liftO, modify, ret, parseStored.
    simpl. rewrite P.
    repeat (destruct I as [I | I]; [subst session; vm_compute; reflexivity |]).
    contradiction. }
  split; [| split].
  - pose proof (apiCall_401_failures_are_AuthExpired rejectingHost
                  "sobjects/User/me" "GET" VNull full _ (mkResponse 401 "")
                  (R rejectingHost fullSession
                     ltac:(simpl; tauto) eq_refl eq_refl)
                  eq_refl eq_refl) as [_ [Refused _]].
    apply (Refused fullSession (mkResponse 401 ""));
      vm_compute; reflexivity.
  - pose proof (apiCall_401_failures_are_AuthExpired rejectingHost
                  "sobjects/User/me" "GET" VNull demo _ (mkResponse 401 "")
                  (R rejectingHost demoSession
                     ltac:(simpl; tauto) eq_refl eq_refl)
                  eq_refl eq_refl) as [_ [_ [NoToken _]]].
    eexists. apply (NoToken demoSession); vm_compute; reflexivity.
  - pose proof (apiCall_401_failures_are_AuthExpired
                  (refreshingHost (mkResponse 401 ""))
                  "sobjects/User/me" "GET" VNull full _ (mkResponse 401 "")
                  (R (refreshingHost (mkResponse 401 "")) fullSession
                     ltac:(simpl; tauto) eq_refl eq_refl)
                  eq_refl eq_refl) as [_ [_ [_ Retry]]].
    erewrite (Retry tokenData _ (mkResponse 401 ""));
      [reflexivity | vm_compute; reflexivity | vm_compute; reflexivity
       | reflexivity].
Defined.

(** C5 at a concrete call: T1 has expired, the refresh hands out T2, and
    the DELETE retried with T2 is answered 204 with no body. *)
Lemma apiCall_retry_204_example :
  fst (apiCall (refreshingHost (mkResponse 204 ""))
         "sobjects/Contact/0031" "DELETE" VNull
         (newService (Some (stringify fullSession))))
  = Throw AuthExpired.
Proof.
  erewrite (apiCall_retry_204_is_parsed (refreshingHost (mkResponse 204 ""))
              "sobjects/Contact/0031" "DELETE" VNull
              (newService (Some (stringify fullSession)))
              (mkState (VStr "T1") instance0
                 (Some (stringify fullSession)) [] [])
              _ (mkResponse 401 "") (mkResponse 204 "") tokenData);
    [reflexivity | vm_compute; reflexivity ..].
Defined.

(** * Further properties of the code *)

(** ** Credentials and failures of apiCall *)

Section Credentials.

Variable h : Host.

Lemma resolveCredentials_none w session :
  truthy (accessToken w) = false ->
  parseStored h (localStorage w) = Ok session ->
  truthy session && present session "access_token" = false ->
  resolveCredentials h w = (Throw NotAuthenticated, w).
Proof.
  intros T P A.
  unfold resolveCredentials, bind, gets, liftO, ret, throw, modify.
  cbv beta. rewrite T. cbn [negb]. rewrite P.
  unfold present in A.
  destruct (truthy session) eqn:TS; simpl in *.
  - destruct (get session "access_token") as [a | e] eqn:G.
    + rewrite A. reflexivity.
    + destruct session; simpl in *; discriminate.
  - rewrite TS. reflexivity.
Qed.

Lemma resolveCredentials_stored w session :
  truthy (accessToken w) = false ->
  parseStored h (localStorage w) = Ok session ->
  truthy session && present session "access_token" = true ->
  resolveCredentials h w
  = (Ok tt, set_instanceUrl (prop session "instance_url")
              (set_accessToken (prop session "access_token") w)).
Proof.
  intros T P A.
  unfold resolveCredentials, bind, gets, liftO, ret, throw, modify.
  cbv beta. rewrite T. cbn [negb]. rewrite P.
  apply andb_true_iff in A. destruct A as [TS A]. rewrite TS.
  unfold present in A. unfold prop.
  destruct (get session "access_token") as [a | e] eqn:G; [| discriminate].
  rewrite A.
  destruct session; simpl in TS; try discriminate; simpl; reflexivity.
Qed.

(** Once the credentials are there, the call sends its request first. *)
Lemma apiCall_sends_original endpoint method data w w0 :
  resolveCredentials h w = (Ok tt, w0) ->
  exists rest,
    sent (snd (apiCall h endpoint method data w))
    = (sent w0 ++ apiRequest h endpoint method data w0 :: rest)%list.
Proof.
  intros R. rewrite apiCall_branches, R. cbv zeta.
  set (original := apiRequest h endpoint method data w0).
  destruct (remote h (sent w0) original) as [r0 |];
    [| exists []; reflexivity].
  destruct (status r0 =? 401).
  - pose proof (refreshToken_trace h VUndefined (add_sent original w0)) as T.
    destruct (refreshToken h VUndefined (add_sent original w0))
      as [[td | e] w2]; simpl in T.
    + assert (exists l, sent w2 = (sent w0 ++ original :: l)%list) as [l E].
      { destruct T as [T | [t [_ T]]]; rewrite T.
        - exists []. reflexivity.
        - exists [t]. rewrite <- app_assoc. reflexivity. }
      eexists (l ++ [_])%list.
      assert (forall (o : outcome value) q,
                 sent (snd (o, add_sent q w2))
                 = (sent w0 ++ original :: l ++ [q])%list) as Shape.
      { intros o q. simpl. rewrite E, <- app_assoc. reflexivity. }
      destruct (remote h (sent w2)
                  (withAuthorization (bearer (accessToken w2)) original))
        as [r2 |]; [destruct (ok r2);
                    [destruct (JSON_parse h (text r2)) |] |];
        apply Shape.
    + destruct T as [T | [t [_ T]]]; simpl; rewrite T.
      * exists []. reflexivity.
      * exists [t]. rewrite <- app_assoc. reflexivity.
  - exists [].
    destruct (ok r0); [destruct (status r0 =? 204);
                       [| destruct (JSON_parse h (text r0))] |];
      reflexivity.
Qed.

(** A call made with no access token in memory and no usable one in the
    store (no entry, or an entry without a truthy [access_token]) fails
    with the not-authenticated error, sends nothing and changes
    nothing. *)
Theorem apiCall_without_credentials :
  forall (w : State) (session : value) (endpoint method : string)
         (data : value),
    truthy (accessToken w) = false ->
    parseStored h (localStorage w) = Ok session ->
    truthy session && present session "access_token" = false ->
    apiCall h endpoint method data w = (Throw NotAuthenticated, w).
Proof.
  intros w session endpoint method data T P A.
  rewrite apiCall_branches, (resolveCredentials_none w session T P A).
  reflexivity.
Qed.

(** A call made with no access token in memory takes the token and the
    instance URL of the stored session: they become the service's, and
    the first request goes to that instance with that token as bearer. *)
Theorem apiCall_reads_through_the_store :
  forall (w : State) (session : value) (endpoint verb : string)
         (data : value),
    truthy (accessToken w) = false ->
    parseStored h (localStorage w) = Ok session ->
    truthy session && present session "access_token" = true ->
    let token := prop session "access_token" in
    let instance := prop session "instance_url" in
    resolveCredentials h w
      = (Ok tt, set_instanceUrl instance (set_accessToken token w))
    /\ exists first rest,
         sent (snd (apiCall h endpoint verb data w))
           = (sent w ++ first :: rest)%list
         /\ url first = apiUrl instance endpoint
         /\ authorization first = Some (bearer token)
         /\ method first = verb.
Proof.
  intros w session endpoint verb data T P A token instance.
  pose proof (resolveCredentials_stored w session T P A) as R.
  fold token instance in R. split; [exact R |].
  destruct (apiCall_sends_original endpoint verb data w _ R) as [rest E].
  eexists. exists rest. split; [exact E |]. repeat split.
Qed.

(** An answer that is neither a success nor 401 ends the call: it fails
    with the status and the body text in its message, after the one
    request, with no refresh and the store as it was. *)
Theorem apiCall_failure_is_not_retried :
  forall (endpoint method : string) (data : value) (w w0 : State)
         (r0 : Response),
    resolveCredentials h w = (Ok tt, w0) ->
    let original := apiRequest h endpoint method data w0 in
    remote h (sent w0) original = Some r0 ->
    status r0 <> 401 ->
    ok r0 = false ->
    apiCall h endpoint method data w
    = (Throw (JsError ("API call failed: " ++ string_of_Z (status r0)
                       ++ " - " ++ text r0)),
       add_sent original w0)
    /\ localStorage (add_sent original w0) = localStorage w.
Proof.
  intros endpoint method data w w0 r0 R original F S K.
  split.
  - rewrite apiCall_branches, R. cbv zeta. fold original. rewrite F.
    apply Z.eqb_neq in S. rewrite S, K. reflexivity.
  - pose proof (resolveCredentials_keeps h w) as [_ L]. rewrite R in L.
    exact L.
Qed.

(** What a successful [refreshToken] leaves: the token of the answer in
    memory. *)
Lemma refreshToken_caches c w tokenData w2 :
  refreshToken h c w = (Ok tokenData, w2) ->
  accessToken w2 = prop tokenData "access_token"
  /\ instanceUrl w2 = instanceUrl w.
Proof.
  unfold refreshToken, bind, gets, liftO, ret, throw, fetch, modify, json.
  cbv beta.
  destruct (parseStored h (localStorage w)) as [session | e];
    [| discriminate].
  destruct (truthy session); simpl; [| discriminate].
  destruct (get session "refresh_token") as [rt | e]; simpl;
    [| discriminate].
  destruct (truthy rt); simpl; [| discriminate].
  destruct (remote h (sent w) (refreshRequest (instanceUrl w) rt c))
    as [r |]; simpl; [| discriminate].
  destruct (ok r); simpl; [| discriminate].
  destruct (JSON_parse h (text r)) as [td |]; simpl; [| discriminate].
  unfold prop.
  destruct (get td "access_token") as [a | e] eqn:Ga; simpl;
    [| discriminate].
  destruct (set session "access_token" a) as [s1 | e]; simpl;
    [| discriminate].
  destruct (get td "issued_at") as [i | e]; simpl; [| discriminate].
  destruct (set s1 "issued_at" i) as [s2 | e]; simpl; [| discriminate].
  intros E. inversion E; subst. rewrite Ga. simpl. split; reflexivity.
Qed.

(** After a 401, a refresh that succeeds and a retry that succeeds, the
    call returns the parsed body of the retry, and the retry carried the
    access token the refresh obtained. *)
Theorem apiCall_retries_with_the_new_token :
  forall (endpoint method : string) (data : value) (w w0 w2 : State)
         (r0 r2 : Response) (tokenData v : value),
    resolveCredentials h w = (Ok tt, w0) ->
    let original := apiRequest h endpoint method data w0 in
    remote h (sent w0) original = Some r0 ->
    status r0 = 401 ->
    refreshToken h VUndefined (add_sent original w0) = (Ok tokenData, w2) ->
    let retry :=
      withAuthorization (bearer (prop tokenData "access_token")) original in
    remote h (sent w2) retry = Some r2 ->
    ok r2 = true ->
    JSON_parse h (text r2) = Some v ->
    apiCall h endpoint method data w = (Ok v, add_sent retry w2)
    /\ url retry = url original
    /\ body retry = body original.
Proof.
  intros endpoint method data w w0 w2 r0 r2 tokenData v R original F S RT
    retry F2 K P.
  destruct (refreshToken_caches _ _ _ _ RT) as [A _].
  split; [| split; reflexivity].
  rewrite apiCall_branches, R. cbv zeta. fold original. rewrite F, S.
  simpl. rewrite RT. rewrite A. fold retry. rewrite F2, K, P. reflexivity.
Qed.

End Credentials.

(** ** Sessions: refresh, code exchange, logout *)

Lemma lookup_assign_same k v fs : lookup k (assign k v fs) = v.
Proof.
  induction fs as [| [k' v'] fs IH]; simpl.
  - rewrite String.eqb_refl. reflexivity.
  - destruct (String.eqb_spec k k') as [E | N]; simpl.
    + rewrite String.eqb_refl. reflexivity.
    + destruct (String.eqb_spec k k'); [contradiction | exact IH].
Qed.

Lemma lookup_assign_other k k' v fs :
  k' <> k -> lookup k' (assign k v fs) = lookup k' fs.
Proof.
  intros N. induction fs as [| [k0 v0] fs IH]; simpl.
  - destruct (String.eqb_spec k' k); [contradiction | reflexivity].
  - destruct (String.eqb_spec k k0) as [E | N0]; simpl.
    + subst k0.
      destruct (String.eqb_spec k' k); [contradiction | reflexivity].
    + destruct (k' =? k0)%string; [reflexivity | exact IH].
Qed.

Lemma keys_assign_present k v fs :
  In k (keys fs) -> keys (assign k v fs) = keys fs.
Proof.
  induction fs as [| [k' v'] fs IH]; simpl; [contradiction |].
  intros I. destruct (String.eqb_spec k k') as [E | N]; simpl.
  - subst. reflexivity.
  - f_equal. apply IH. destruct I as [I | I]; [congruence | exact I].
Qed.

Section Sessions.

Variable h : Host.

(** A refresh that succeeds writes through.  The stored session is an
    object with a truthy [refresh_token]; the token endpoint answers with
    a success whose body parses to an object.  Then the access token of
    the answer is the service's and the stored session's, [issued_at] is
    the answer's, and every other field of the stored session, the
    refresh token among them, is as before. *)
Theorem refreshToken_writes_through :
  forall (clientId : value) (w : State) (fs : list (string * value))
         (r : Response) (tokenData : value),
    parseStored h (localStorage w) = Ok (VObj fs) ->
    truthy (lookup "refresh_token" fs) = true ->
    let request :=
      refreshRequest (instanceUrl w) (lookup "refresh_token" fs) clientId in
    remote h (sent w) request = Some r ->
    ok r = true ->
    JSON_parse h (text r) = Some tokenData ->
    nullish tokenData = false ->
    let token := prop tokenData "access_token" in
    let fs' := assign "issued_at" (prop tokenData "issued_at")
                 (assign "access_token" token fs) in
    refreshToken h clientId w
      = (Ok tokenData,
         set_localStorage (Some (JSON_stringify h (VObj fs')))
           (set_accessToken token (add_sent request w)))
    /\ lookup "access_token" fs' = token
    /\ lookup "issued_at" fs' = prop tokenData "issued_at"
    /\ (forall k, k <> "access_token" -> k <> "issued_at" ->
                  lookup k fs' = lookup k fs).
Proof.
  intros clientId w fs r tokenData P T request F K J N token fs'.
  split; [| split; [| split]].
  - unfold refreshToken, bind, gets, liftO, ret, throw, fetch, modify, json.
    cbv beta. rewrite P. cbn [truthy get negb orb]. rewrite T. cbn [negb].
    fold request. rewrite F. rewrite K. cbn [negb]. rewrite J.
    rewrite !(get_prop tokenData _ N). reflexivity.
  - unfold fs'. rewrite lookup_assign_other by discriminate.
    apply lookup_assign_same.
  - unfold fs'. apply lookup_assign_same.
  - intros k N1 N2. unfold fs'.
    rewrite lookup_assign_other by exact N2.
    apply lookup_assign_other. exact N1.
Qed.

(** The code exchange.  A refused exchange fails with the status in its
    message and leaves the service's token, its instance URL and the
    store alone.  An exchange answered with a success whose body parses
    to an object takes the token and the instance URL of the answer and
    stores exactly the five session fields, in this order. *)
Theorem exchangeCodeForToken_outcomes :
  forall (code clientId redirectUri : value) (w : State) (r : Response),
    let request := exchangeRequest (instanceUrl w) code clientId redirectUri in
    remote h (sent w) request = Some r ->
    (ok r = false ->
     exchangeCodeForToken h code clientId redirectUri w
     = (Throw (JsError ("Token exchange failed: " ++ string_of_Z (status r))),
        add_sent request w))
    /\ (forall tokenData,
          ok r = true ->
          JSON_parse h (text r) = Some tokenData ->
          nullish tokenData = false ->
          let sessionData :=
            VObj [("access_token", prop tokenData "access_token");
                  ("refresh_token", prop tokenData "refresh_token");
                  ("instance_url", prop tokenData "instance_url");
                  ("issued_at", prop tokenData "issued_at");
                  ("signature", prop tokenData "signature")] in
          exchangeCodeForToken h code clientId redirectUri w
          = (Ok sessionData,
             mkState (prop tokenData "access_token")
                     (prop tokenData "instance_url")
                     (Some (JSON_stringify h sessionData))
                     (sent w ++ [request]) (console w))).
Proof.
  intros code clientId redirectUri w r request F. split.
  - intros K.
    unfold exchangeCodeForToken, bind, gets, liftO, ret, throw, fetch,
      modify, json.
    cbv beta. fold request. rewrite F, K. reflexivity.
  - intros tokenData K J N sessionData.
    unfold exchangeCodeForToken, bind, gets, liftO, ret, throw, fetch,
      modify, json.
    cbv beta. fold request. rewrite F, K. cbn [negb]. rewrite J.
    rewrite !(get_prop tokenData _ N). reflexivity.
Qed.

(** After [logout] the service holds no token, the store has no session,
    [isAuthenticated] answers false, [getSessionInfo] answers null, and
    every call fails with the not-authenticated error without sending a
    request. *)
Theorem logout_ends_the_session :
  forall w : State,
    let w' := mkState VNull VNull None (sent w) (console w) in
    logout w = (Ok tt, w')
    /\ isAuthenticated h w' = (Ok false, w')
    /\ getSessionInfo h w' = (Ok VNull, w')
    /\ (forall endpoint method data,
          apiCall h endpoint method data w' = (Throw NotAuthenticated, w')).
Proof.
  intros w w'.
  split; [reflexivity | split; [reflexivity | split; [reflexivity |]]].
  intros endpoint method data.
  rewrite apiCall_branches.
  rewrite (resolveCredentials_none h w' VNull); reflexivity.
Qed.

End Sessions.

(** ** The records of logEmail, createEmailTask, createActivityFromEmail *)

Lemma truthy_orDefault_null r : truthy (orDefault VNull r) = truthy r.
Proof. destruct r; reflexivity. Qed.

Lemma orDefault_truthy r : truthy r = true -> orDefault VNull r = r.
Proof. destruct r; simpl; try discriminate; reflexivity. Qed.

(** [logEmail] sends the seven fields it maps whether or not the input
    has them (nothing is stripped, unlike [createContact]); [Incoming] is
    false unless the input says otherwise; [RelatedToId] is a key of the
    record exactly when a related record id is given. *)
Theorem logEmail_record :
  forall emailData relatedRecordId : value,
    nullish emailData = false ->
    exists fs,
      emailRecord emailData relatedRecordId = Ok (VObj fs)
      /\ (forall h w,
            logEmail h emailData relatedRecordId w
            = createRecord h "EmailMessage" (VObj fs) w)
      /\ has "RelatedToId" fs = truthy relatedRecordId
      /\ (truthy relatedRecordId = true ->
          lookup "RelatedToId" fs = relatedRecordId)
      /\ (forall remote input,
            In (remote, input)
               [("Subject", "subject"); ("TextBody", "body");
                ("FromAddress", "from"); ("ToAddress", "to");
                ("MessageDate", "date")] ->
            has remote fs = true
            /\ lookup remote fs = prop emailData input)
      /\ lookup "Status" fs = VStr "3"
      /\ lookup "Incoming" fs
         = (if truthy (prop emailData "incoming")
            then prop emailData "incoming" else VBool false).
Proof.
  intros d r N.
  assert (exists fs,
             emailRecord d r = Ok (VObj fs)
             /\ has "RelatedToId" fs = truthy r
             /\ (truthy r = true -> lookup "RelatedToId" fs = r)
             /\ (forall remote input,
                   In (remote, input)
                      [("Subject", "subject"); ("TextBody", "body");
                       ("FromAddress", "from"); ("ToAddress", "to");
                       ("MessageDate", "date")] ->
                   has remote fs = true
                   /\ lookup remote fs = prop d input)
             /\ lookup "Status" fs = VStr "3"
             /\ lookup "Incoming" fs
                = (if truthy (prop d "incoming")
                   then prop d "incoming" else VBool false))
    as [fs [E P]].
  { unfold emailRecord. rewrite !(get_prop d _ N). cbn [obind].
    rewrite truthy_orDefault_null.
    destruct (truthy r) eqn:T.
    - rewrite (orDefault_truthy r T). eexists. split; [reflexivity |].
      split; [reflexivity |]. split; [reflexivity |].
      split; [| split; reflexivity].
      intros remote input I. simpl in I.
      repeat (destruct I as [I | I];
              [inversion I; subst; split; reflexivity |]).
      contradiction.
    - eexists. split; [reflexivity |].
      split; [reflexivity |]. split; [discriminate |].
      split; [| split; reflexivity].
      intros remote input I. simpl in I.
      repeat (destruct I as [I | I];
              [inversion I; subst; split; reflexivity |]).
      contradiction. }
  exists fs. split; [exact E |]. split; [| exact P].
  intros h w. unfold logEmail, bind, liftO. rewrite E. reflexivity.
Qed.

(** [createEmailTask] links the task to a record ([WhatId]) and to a
    person ([WhoId]) independently of one another, so a task can carry
    both; its subject is the e-mail's behind the prefix Email, the text
    undefined standing for a missing subject. *)
Theorem createEmailTask_record :
  forall (today : string) (emailData relatedRecordId contactId : value),
    nullish emailData = false ->
    exists fs,
      taskRecord today emailData relatedRecordId contactId = Ok (VObj fs)
      /\ (forall h w,
            createEmailTask h today emailData relatedRecordId contactId w
            = createRecord h "Task" (VObj fs) w)
      /\ has "WhatId" fs = truthy relatedRecordId
      /\ has "WhoId" fs = truthy contactId
      /\ (truthy relatedRecordId = true ->
          lookup "WhatId" fs = relatedRecordId)
      /\ (truthy contactId = true -> lookup "WhoId" fs = contactId)
      /\ lookup "Subject" fs
         = VStr ("Email: " ++ ToString (prop emailData "subject"))
      /\ lookup "ActivityDate" fs = VStr today.
Proof.
  intros today d r c N.
  assert (exists fs,
             taskRecord today d r c = Ok (VObj fs)
             /\ has "WhatId" fs = truthy r
             /\ has "WhoId" fs = truthy c
             /\ (truthy r = true -> lookup "WhatId" fs = r)
             /\ (truthy c = true -> lookup "WhoId" fs = c)
             /\ lookup "Subject" fs
                = VStr ("Email: " ++ ToString (prop d "subject"))
             /\ lookup "ActivityDate" fs = VStr today)
    as [fs [E P]].
  { unfold taskRecord. rewrite !(get_prop d _ N).
    cbn [obind]. rewrite !truthy_orDefault_null.
    destruct (truthy r) eqn:Tr; destruct (truthy c) eqn:Tc;
      rewrite ?(orDefault_truthy r Tr), ?(orDefault_truthy c Tc);
      cbn [obind set]; eexists;
      (split; [reflexivity |]);
      repeat split; try reflexivity; try discriminate. }
  exists fs. split; [exact E |]. split; [| exact P].
  intros h w. unfold createEmailTask, bind, liftO. rewrite E. reflexivity.
Qed.

(** The task of [createActivityFromEmail] is linked by [WhoId] when the
    related record is declared a Contact or a Lead and by [WhatId]
    otherwise, never by both, and by neither when no related id is
    given. *)
Theorem createActivityFromEmail_links :
  forall (today : string) (emailData activityData : value)
         (fs : list (string * value)),
    activityTask today emailData activityData = Ok (VObj fs) ->
    let relatedToId := prop activityData "relatedToId" in
    let person := isPerson (prop activityData "relatedToType") in
    has "WhoId" fs = truthy relatedToId && person
    /\ has "WhatId" fs = truthy relatedToId && negb person
    /\ has "WhoId" fs && has "WhatId" fs = false
    /\ (truthy relatedToId = true ->
        lookup (if person then "WhoId" else "WhatId") fs = relatedToId).
Proof.
  intros today e a fs. unfold activityTask.
  destruct (nullish a) eqn:N.
  { destruct a; simpl in N; try discriminate; simpl; discriminate. }
  rewrite !(get_prop a _ N). cbn [obind].
  destruct (if truthy (prop a "subject") then Ok (prop a "subject")
            else obind (get e "subject")
                   (fun s => Ok (VStr ("Email: " ++ ToString s))))
    as [subject | err]; [| discriminate].
  cbn [obind].
  destruct (if truthy (prop a "description") then Ok (prop a "description")
            else get e "body") as [description | err]; [| discriminate].
  cbn [obind].
  destruct (truthy (prop a "relatedToId")) eqn:T.
  - destruct (isPerson (prop a "relatedToType")) eqn:P; cbn [set];
      intros E; inversion E; subst; clear E; cbn [andb negb];
      repeat split; reflexivity.
  - intros E; inversion E; subst; clear E. cbn [andb].
    repeat split; try reflexivity. discriminate.
Qed.

(** The defaults of [createActivityFromEmail].  Each field of the
    activity wins when it is truthy; the e-mail is read only for a field
    the activity leaves empty, so an activity that has its own subject
    and description gives a task even with no e-mail data at all. *)
Theorem createActivityFromEmail_defaults :
  forall (today : string) (emailData activityData : value),
    nullish activityData = false ->
    nullish emailData = false
    \/ (truthy (prop activityData "subject") = true
        /\ truthy (prop activityData "description") = true) ->
    exists fs,
      activityTask today emailData activityData = Ok (VObj fs)
      /\ lookup "Subject" fs
         = (if truthy (prop activityData "subject")
            then prop activityData "subject"
            else VStr ("Email: " ++ ToString (prop emailData "subject")))
      /\ lookup "Description" fs
         = (if truthy (prop activityData "description")
            then prop activityData "description"
            else prop emailData "body")
      /\ lookup "ActivityDate" fs = VStr today
      /\ lookup "Status" fs
         = js_or (prop activityData "status") (VStr "Completed")
      /\ lookup "Type" fs = js_or (prop activityData "type") (VStr "Email")
      /\ lookup "Priority" fs
         = js_or (prop activityData "priority") (VStr "Normal").
Proof.
  intros today e a N H.
  assert (S : (if truthy (prop a "subject") then Ok (prop a "subject")
               else obind (get e "subject")
                      (fun s => Ok (VStr ("Email: " ++ ToString s))))
              = Ok (if truthy (prop a "subject") then prop a "subject"
                    else VStr ("Email: " ++ ToString (prop e "subject")))).
  { destruct (truthy (prop a "subject")) eqn:T; [reflexivity |].
    destruct H as [Ne | [C _]]; [| discriminate].
    rewrite (get_prop e _ Ne). reflexivity. }
  assert (D : (if truthy (prop a "description")
               then Ok (prop a "description") else get e "body")
              = Ok (if truthy (prop a "description")
                    then prop a "description" else prop e "body")).
  { destruct (truthy (prop a "description")) eqn:T; [reflexivity |].
    destruct H as [Ne | [_ C]]; [| discriminate].
    rewrite (get_prop e _ Ne). reflexivity. }
  unfold activityTask. rewrite !(get_prop a _ N). cbn [obind].
  rewrite S. cbn [obind]. rewrite D. cbn [obind].
  destruct (truthy (prop a "relatedToId")).
  - destruct (isPerson (prop a "relatedToType")); cbn [set];
      eexists; repeat split; reflexivity.
  - eexists; repeat split; reflexivity.
Qed.

(** ** Lookups that absorb failures, and those that do not *)

Section Lookups.

Variable h : Host.

(** [findByEmail] never throws.  A failure of the Contact query leaves
    both groups empty, with nothing sent after it; a failure of the Lead
    query keeps the contacts found.  A group is the [records] of the
    answer, or the empty list when the answer has none. *)
Theorem findByEmail_absorbs_failures :
  forall (emailAddress : value) (w : State),
    (exists results w', findByEmail h emailAddress w = (Ok results, w'))
    /\ (forall e w1,
          query h (findByEmail_contactQuery emailAddress) w = (Throw e, w1) ->
          findByEmail h emailAddress w
          = (Ok ByEmail.empty,
             add_console "Error finding records by email:" e w1))
    /\ (forall contactResult w1 records e w2,
          query h (findByEmail_contactQuery emailAddress) w
            = (Ok contactResult, w1) ->
          get contactResult "records" = Ok records ->
          query h (findByEmail_leadQuery emailAddress) w1 = (Throw e, w2) ->
          findByEmail h emailAddress w
          = (Ok (ByEmail.mk (js_or records (VArr [])) (VArr [])),
             add_console "Error finding records by email:" e w2))
    /\ (forall contactResult w1 records leadResult w2 leadRecords,
          query h (findByEmail_contactQuery emailAddress) w
            = (Ok contactResult, w1) ->
          get contactResult "records" = Ok records ->
          query h (findByEmail_leadQuery emailAddress) w1
            = (Ok leadResult, w2) ->
          get leadResult "records" = Ok leadRecords ->
          findByEmail h emailAddress w
          = (Ok (ByEmail.mk (js_or records (VArr []))
                            (js_or leadRecords (VArr []))), w2)).
Proof.
  intros emailAddress w.
  unfold findByEmail, withLocal, tryCatch, bind, zoom, liftO, modify, gets,
    ret.
  cbn [fst snd].
  split; [| split; [| split]].
  - destruct (query h (findByEmail_contactQuery emailAddress) w)
      as [[cr | e] w1]; [| eauto].
    destruct (get cr "records") as [records | e]; [| eauto]. cbn [fst snd].
    destruct (query h (findByEmail_leadQuery emailAddress) w1)
      as [[lr | e] w2]; [| eauto].
    destruct (get lr "records") as [lrecords | e]; eauto.
  - intros e w1 Q. rewrite Q. reflexivity.
  - intros cr w1 records e w2 Q G L. rewrite Q, G. cbn [fst snd].
    rewrite L. reflexivity.
  - intros cr w1 records lr w2 lrecords Q G L GL. rewrite Q, G.
    cbn [fst snd]. rewrite L, GL. reflexivity.
Qed.

(** A block whose [catch] only logs returns its local, whatever
    happens in the [try]. *)
Lemma absorbed {L : Type} (init : L) (m : M (L * State) unit)
      (label : string) (w : State) :
  exists r w',
    withLocal init
      (tryCatch m (fun e => zoom (modify (add_console label e))) ;;
       gets fst)%js w
    = (Ok r, w').
Proof.
  unfold withLocal, bind, tryCatch, zoom, modify, gets.
  destruct (m (init, w)) as [[u | e] [l w']]; cbn [fst snd]; eauto.
Qed.

Lemma forEach_push_all row items rows acc (w : State) :
  mapM row items = Ok rows ->
  forEachM (pushRow row) items (acc, w) = (Ok tt, ((acc ++ rows)%list, w)).
Proof.
  revert rows acc. induction items as [| x items IH]; intros rows acc E.
  - inversion E; subst. rewrite app_nil_r. reflexivity.
  - simpl in E. destruct (row x) as [y | e] eqn:Rx; [| discriminate].
    simpl in E. destruct (mapM row items) as [ys | e]; [| discriminate].
    inversion E; subst.
    change (forEachM (pushRow row) (x :: items) (acc, w))
      with (bind (pushRow row x) (fun _ => forEachM (pushRow row) items)
              (acc, w)).
    unfold bind at 1. unfold pushRow at 1. unfold bind, liftO, modify.
    rewrite Rx. cbn [fst snd].
    rewrite (IH ys (acc ++ [y])%list eq_refl).
    rewrite <- app_assoc. reflexivity.
Qed.

Lemma mapM_each row tag items rows :
  (forall x y, row x = Ok y -> prop y "type" = tag) ->
  mapM row items = Ok rows ->
  Forall (fun y => prop y "type" = tag) rows.
Proof.
  intros T. revert rows. induction items as [| x items IH]; intros rows E.
  - inversion E. constructor.
  - simpl in E. destruct (row x) as [y | e] eqn:Rx; [| discriminate].
    simpl in E. destruct (mapM row items) as [ys | e]; [| discriminate].
    inversion E; subst. constructor; [exact (T x y Rx) | auto].
Qed.

Lemma mapM_length row items rows :
  mapM row items = Ok rows -> List.length rows = List.length items.
Proof.
  revert rows. induction items as [| x items IH]; intros rows E.
  - inversion E. reflexivity.
  - simpl in E. destruct (row x) as [y | e]; [| discriminate].
    simpl in E. destruct (mapM row items) as [ys | e]; [| discriminate].
    inversion E; subst. simpl. f_equal. auto.
Qed.

Lemma contactRow_type x y : contactRow x = Ok y -> prop y "type" = VStr "Contact".
Proof.
  unfold contactRow, obind.
  repeat match goal with
         | |- context [match ?g with _ => _ end] =>
             destruct g; try discriminate
         end;
    intros E; inversion E; reflexivity.
Qed.

Lemma leadRow_type x y : leadRow x = Ok y -> prop y "type" = VStr "Lead".
Proof.
  unfold leadRow, obind.
  repeat match goal with
         | |- context [match ?g with _ => _ end] =>
             destruct g; try discriminate
         end;
    intros E; inversion E; reflexivity.
Qed.

(** [searchContactsAndLeads] never throws.  When both queries answer
    with lists of records, the result is one row per contact, in the
    order returned and tagged Contact, followed by one row per lead,
    tagged Lead.  When the Lead query fails the contact rows already
    pushed are returned. *)
Theorem searchContactsAndLeads_rows :
  forall (searchTerm : value) (w : State),
    (exists rows w', searchContactsAndLeads h searchTerm w = (Ok rows, w'))
    /\ (forall contactResult w1 contacts contactRows,
          query h (searchContactsQuery searchTerm) w
            = (Ok contactResult, w1) ->
          get contactResult "records" = Ok (VArr contacts) ->
          mapM contactRow contacts = Ok contactRows ->
          Forall (fun y => prop y "type" = VStr "Contact") contactRows
          /\ List.length contactRows = List.length contacts
          /\ (forall e w2,
                query h (searchLeadsQuery searchTerm) w1 = (Throw e, w2) ->
                searchContactsAndLeads h searchTerm w
                = (Ok contactRows,
                   add_console "Error searching contacts and leads:" e w2))
          /\ (forall leadResult w2 leads leadRows,
                query h (searchLeadsQuery searchTerm) w1
                  = (Ok leadResult, w2) ->
                get leadResult "records" = Ok (VArr leads) ->
                mapM leadRow leads = Ok leadRows ->
                searchContactsAndLeads h searchTerm w
                  = (Ok (contactRows ++ leadRows)%list, w2)
                /\ Forall (fun y => prop y "type" = VStr "Lead") leadRows
                /\ List.length leadRows = List.length leads)).
Proof.
  intros searchTerm w. split.
  - unfold searchContactsAndLeads. apply absorbed.
  - intros cr w1 contacts crows Q G MC.
    split; [exact (mapM_each _ _ _ _ contactRow_type MC) |].
    split; [exact (mapM_length _ _ _ MC) |].
    assert (T : truthy (VArr contacts) = true) by reflexivity.
    split.
    + intros e w2 L.
      unfold searchContactsAndLeads, withLocal, tryCatch, bind, zoom, liftO,
        modify, gets, ret.
      cbn [fst snd]. rewrite Q, G, T. cbn [asArray].
      rewrite (forEach_push_all contactRow contacts crows [] w1 MC).
      cbn [fst snd app]. rewrite L. reflexivity.
    + intros lr w2 leads lrows L GL ML.
      split; [| split; [exact (mapM_each _ _ _ _ leadRow_type ML)
                       | exact (mapM_length _ _ _ ML)]].
      unfold searchContactsAndLeads, withLocal, tryCatch, bind, zoom, liftO,
        modify, gets, ret.
      cbn [fst snd]. rewrite Q, G, T. cbn [asArray].
      rewrite (forEach_push_all contactRow contacts crows [] w1 MC).
      cbn [fst snd app]. rewrite L, GL.
      destruct leads as [| l0 leads].
      * inversion ML; subst. cbn. rewrite app_nil_r. reflexivity.
      * cbn [truthy asArray].
        rewrite (forEach_push_all leadRow (l0 :: leads) lrows crows w2 ML).
        reflexivity.
Qed.

(** [getUserActivities] never throws: whatever fails, the user lookup or
    the query, it logs the error and answers an empty record list.
    [getRecentActivities] lets the failure of the user lookup through,
    and sends no query after it. *)
Theorem getUserActivities_absorbs_failures :
  forall (limit : value) (w : State),
    (exists v w', getUserActivities h limit w = (Ok v, w'))
    /\ (forall e w1,
          getCurrentUserId h w = (Throw e, w1) ->
          getUserActivities h limit w
            = (Ok (VObj [("records", VArr [])]),
               add_console "Error getting user activities:" e w1)
          /\ getRecentActivities h limit w = (Throw e, w1))
    /\ (forall userId w1 e w2,
          getCurrentUserId h w = (Ok userId, w1) ->
          query h (userActivitiesQuery userId (orDefault (VNum 20) limit)) w1
            = (Throw e, w2) ->
          getUserActivities h limit w
            = (Ok (VObj [("records", VArr [])]),
               add_console "Error getting user activities:" e w2)).
Proof.
  intros limit w.
  unfold getUserActivities, getRecentActivities, tryCatch, bind, modify, ret.
  split; [| split].
  - destruct (getCurrentUserId h w) as [[userId | e] w1]; [| eauto].
    destruct (query h (userActivitiesQuery userId (orDefault (VNum 20) limit))
                w1) as [[v | e] w2]; eauto.
  - intros e w1 U. rewrite U. split; reflexivity.
  - intros userId w1 e w2 U Q. rewrite U, Q. reflexivity.
Qed.

(** [deleteRecord] sends a DELETE with no body to the record's path, and
    an answer 204 gives the empty object. *)
Theorem deleteRecord_no_content :
  forall (objectType : string) (recordId : value) (w w0 : State)
         (r0 : Response),
    resolveCredentials h w = (Ok tt, w0) ->
    let request :=
      mkRequest
        (apiUrl (instanceUrl w0)
           ("sobjects/" ++ objectType ++ "/" ++ ToString recordId))
        "DELETE" (Some (bearer (accessToken w0))) "application/json" NoBody in
    remote h (sent w0) request = Some r0 ->
    status r0 = 204 ->
    deleteRecord h objectType recordId w
    = (Ok (VObj []), add_sent request w0).
Proof.
  intros objectType recordId w w0 r0 R request F S.
  unfold deleteRecord.
  exact (apiCall_204 h _ "DELETE" VNull w w0 r0 R F S).
Qed.

End Lookups.

(** ** testConnection *)

Section Connection.

Variable h : Host.
Variable positiveText : string -> bool.
Variable engineMessage : error -> string.

(** [testConnection] never throws: it answers an object whose [success]
    is true, or false beside the message of the error.  When the user
    call fails the organisation call is not made and the failure's
    message is the [error] of the answer; so with no session the answer
    says: not authenticated. *)
Theorem testConnection_captures_failures :
  forall w : State,
    (exists v w',
        testConnection h positiveText engineMessage w = (Ok v, w')
        /\ (prop v "success" = VBool true
            \/ (prop v "success" = VBool false
                /\ exists e, prop v "error" = messageOf engineMessage e)))
    /\ (forall e w1,
          apiCall h "sobjects/User/me" "GET" VNull w = (Throw e, w1) ->
          testConnection h positiveText engineMessage w
          = (Ok (VObj [("success", VBool false);
                       ("error", messageOf engineMessage e)]), w1))
    /\ (forall userInfo w1 e w2,
          apiCall h "sobjects/User/me" "GET" VNull w = (Ok userInfo, w1) ->
          apiCall h "sobjects/Organization" "GET" VNull w1 = (Throw e, w2) ->
          testConnection h positiveText engineMessage w
          = (Ok (VObj [("success", VBool false);
                       ("error", messageOf engineMessage e)]), w2)).
Proof.
  intros w. split; [| split].
  - unfold testConnection, tryCatch.
    match goal with
    | |- context [match ?m w with _ => _ end] =>
        destruct (m w) as [[v | e] w'] eqn:B
    end.
    + exists v, w'. split; [reflexivity |]. left.
      revert B. unfold bind, getOrgInfo, liftO, ret.
      repeat match goal with
             | |- context [match ?g with _ => _ end] =>
                 destruct g; try discriminate
             end.
      intros B. inversion B. reflexivity.
    + eexists. eexists. split; [reflexivity |]. right.
      split; [reflexivity |]. exists e. reflexivity.
  - intros e w1 U. unfold testConnection, tryCatch, bind. rewrite U.
    reflexivity.
  - intros userInfo w1 e w2 U O.
    unfold testConnection, tryCatch, bind, getOrgInfo. rewrite U, O.
    reflexivity.
Qed.

End Connection.

(** ** The task pane *)

(** *** Times *)

(** Once a session is reported expired it stays so at every later
    time. *)
Theorem isTokenExpired_stays_expired :
  forall (now later : Z) (session : value),
    now <= later ->
    isTokenExpired now session = Ok true ->
    isTokenExpired later session = Ok true.
Proof.
  intros now later session L. unfold isTokenExpired, obind.
  destruct (get session "issued_at") as [issued_at | e]; [| discriminate].
  destruct (truthy issued_at); cbn [negb]; [| reflexivity].
  destruct (parseInt (ToString issued_at)) as [t |]; simpl;
    [| discriminate].
  intros E. injection E as G. apply Z.gtb_lt in G.
  f_equal. apply Z.gtb_lt. lia.
Qed.

(** *** Printing a time stamp and reading it back *)

Lemma readDigits_printed acc d :
  readDigits 10 (Some acc) (NilEmpty.string_of_uint d)
  = Some (digitsValue acc d).
Proof.
  revert acc. induction d; intros acc; simpl; try reflexivity; apply IHd.
Qed.

Lemma of_uint_acc_value d acc :
  Zpos (Pos.of_uint_acc d acc) = digitsValue (Zpos acc) d.
Proof.
  revert acc. induction d; intros acc;
    cbn [Pos.of_uint_acc digitsValue]; try reflexivity;
    rewrite IHd; f_equal; lia.
Qed.

Lemma of_uint_value d : Z.of_N (Pos.of_uint d) = digitsValue 0 d.
Proof.
  induction d; cbn [Pos.of_uint digitsValue Z.of_N]; try reflexivity;
    try exact IHd; rewrite of_uint_acc_value; reflexivity.
Qed.

Lemma printed_value p : digitsValue 0 (Pos.to_uint p) = Zpos p.
Proof.
  rewrite <- of_uint_value, DecimalPos.Unsigned.of_to. reflexivity.
Qed.

Lemma printed_nonempty p : NilEmpty.string_of_uint (Pos.to_uint p) <> "".
Proof.
  pose proof (DecimalPos.Unsigned.to_uint_nonnil p) as N.
  destruct (Pos.to_uint p); simpl; congruence.
Qed.

Lemma parseInt_digits d :
  d <> Decimal.Nil ->
  parseInt (NilEmpty.string_of_uint d) = Some (digitsValue 0 d)
  /\ parseInt (String "-" (NilEmpty.string_of_uint d))
     = Some (- digitsValue 0 d).
Proof.
  intros N.
  destruct d as [| d | d | d | d | d | d | d | d | d | d];
    [congruence | ..];
    destruct d; unfold parseInt; simpl;
    rewrite ?readDigits_printed; simpl; split; f_equal;
    try reflexivity;
    match goal with
    | |- context [digitsValue ?a ?t] => destruct (digitsValue a t)
    end; reflexivity.
Qed.

Lemma string_of_Z_pos p :
  string_of_Z (Zpos p) = NilEmpty.string_of_uint (Pos.to_uint p)
  /\ string_of_Z (Zneg p) = String "-" (NilEmpty.string_of_uint (Pos.to_uint p)).
Proof.
  unfold string_of_Z, NilZero.string_of_int, NilZero.string_of_uint. simpl.
  pose proof (DecimalPos.Unsigned.to_uint_nonnil p) as N.
  destruct (Pos.to_uint p); [congruence | ..]; split; reflexivity.
Qed.

Lemma parseInt_string_of_Z n : parseInt (string_of_Z n) = Some n.
Proof.
  destruct n as [| p | p].
  - reflexivity.
  - rewrite (proj1 (string_of_Z_pos p)).
    rewrite (proj1 (parseInt_digits _ (DecimalPos.Unsigned.to_uint_nonnil p))).
    rewrite printed_value. reflexivity.
  - rewrite (proj2 (string_of_Z_pos p)).
    rewrite (proj2 (parseInt_digits _ (DecimalPos.Unsigned.to_uint_nonnil p))).
    rewrite printed_value. reflexivity.
Qed.

Lemma string_of_Z_nonempty n : (string_of_Z n =? "")%string = false.
Proof.
  destruct n as [| p | p]; [reflexivity | |].
  - rewrite (proj1 (string_of_Z_pos p)).
    pose proof (printed_nonempty p).
    destruct (NilEmpty.string_of_uint (Pos.to_uint p)); [congruence | reflexivity].
  - rewrite (proj2 (string_of_Z_pos p)). reflexivity.
Qed.

(** *** getTimeAgo *)

(** [getTimeAgo] counts whole days from one day on, whole hours from one
    hour up to a day, and whole minutes below one hour; the count is the
    age divided by the unit, rounded down.  Below one minute it says 0
    minute ago, and for a date in the future a negative count of
    minutes; the plural is used from 2 on. *)
Theorem getTimeAgo_units :
  forall now date : Z,
    let age := now - date in
    (msPerDay <= age ->
     getTimeAgo now date
     = string_of_Z (age / msPerDay) ++ " day" ++ plural (age / msPerDay)
       ++ " ago"
     /\ 1 <= age / msPerDay)
    /\ (msPerHour <= age < msPerDay ->
        getTimeAgo now date
        = string_of_Z (age / msPerHour) ++ " hour"
          ++ plural (age / msPerHour) ++ " ago"
        /\ 1 <= age / msPerHour < 24)
    /\ (age < msPerHour ->
        getTimeAgo now date
        = string_of_Z (age / msPerMinute) ++ " minute"
          ++ plural (age / msPerMinute) ++ " ago"
        /\ age / msPerMinute < 60).
Proof.
  intros now date age.
  assert (DD : age / msPerHour / 24 = age / msPerDay).
  { unfold msPerHour, msPerDay. rewrite Z.div_div by lia. reflexivity. }
  unfold getTimeAgo, floorDiv, plural. fold age.
  change (1000 * 60 * 60) with msPerHour.
  change (1000 * 60) with msPerMinute.
  rewrite DD.
  assert (Hd : msPerDay = 86400000) by reflexivity.
  assert (Hh : msPerHour = 3600000) by reflexivity.
  assert (Hm : msPerMinute = 60000) by reflexivity.
  split; [| split].
  - intros A.
    assert (1 <= age / msPerDay)
      by (apply Z.div_le_lower_bound; lia).
    split; [| assumption].
    destruct (Z.gtb_spec (age / msPerDay) 0); [reflexivity | lia].
  - intros [A B].
    assert (age / msPerDay = 0) by (apply Z.div_small; lia).
    assert (1 <= age / msPerHour)
      by (apply Z.div_le_lower_bound; lia).
    assert (age / msPerHour < 24)
      by (apply Z.div_lt_upper_bound; lia).
    split; [| lia].
    destruct (Z.gtb_spec (age / msPerDay) 0); [lia |].
    destruct (Z.gtb_spec (age / msPerHour) 0); [reflexivity | lia].
  - intros A.
    assert (age / msPerDay <= 0).
    { assert (age / msPerDay < 1)
        by (apply Z.div_lt_upper_bound; lia). lia. }
    assert (age / msPerHour <= 0).
    { assert (age / msPerHour < 1)
        by (apply Z.div_lt_upper_bound; lia). lia. }
    assert (age / msPerMinute < 60)
      by (apply Z.div_lt_upper_bound; lia).
    split; [| assumption].
    destruct (Z.gtb_spec (age / msPerDay) 0); [lia |].
    destruct (Z.gtb_spec (age / msPerHour) 0); [lia | reflexivity].
Qed.

(** *** checkSalesforceAuth, simulateAuthentication, logoutFromSalesforce *)

Section Pane.

Variable h : Host.

(** What [checkSalesforceAuth] leaves on the page. *)
Lemma checkSalesforceAuth_shows now p :
  exists p',
    checkSalesforceAuth h now p = (Ok tt, p')
    /\ mainAppHidden p' = negb (accepted h now p)
    /\ authSectionHidden p' = accepted h now p
    /\ paneStorage p' = paneStorage p
    /\ loading p'
       = (if accepted h now p
          then loading p ++ ["loadRelatedRecords"; "loadRecentActivity"]
          else loading p)%list
    /\ (forall s session,
          paneStorage p = Some s -> s <> "" ->
          JSON_parse h s = Some session ->
          salesforceSession p' = session).
Proof.
  unfold checkSalesforceAuth, accepted, tryCatch, bind, gets, liftO, modify,
    ret, parseStored.
  cbv beta.
  assert (Same : forall (s : string) (a b : value),
             JSON_parse h s = Some a ->
             forall s0, Some s = Some s0 -> JSON_parse h s0 = Some b ->
                        a = b).
  { intros s a b J s0 S0 J0. inversion S0; subst. congruence. }
  destruct (paneStorage p) as [s |] eqn:PS; cbn [fst snd].
  2:{ eexists. split; [reflexivity |]. simpl. rewrite PS.
      repeat split; discriminate. }
  destruct (String.eqb_spec s "") as [E | NE]; cbn [negb andb].
  { eexists. split; [reflexivity |]. simpl. rewrite PS.
    repeat split. intros s0 session S0 N. congruence. }
  destruct (JSON_parse h s) as [session |] eqn:J.
  2:{ eexists. split; [reflexivity |]. simpl. rewrite PS.
      repeat split. intros s0 session S0 N J0.
      inversion S0; subst. congruence. }
  unfold present.
  destruct (get session "access_token") as [token | e] eqn:G.
  2:{ eexists. split; [reflexivity |]. simpl. rewrite PS.
      repeat split; try (rewrite <- app_assoc; reflexivity);
        intros; eapply Same; eauto. }
  destruct (truthy token) eqn:T; cbn [andb].
  2:{ eexists. split; [reflexivity |]. simpl. rewrite PS.
      repeat split; try (rewrite <- app_assoc; reflexivity);
        intros; eapply Same; eauto. }
  destruct (isTokenExpired now session) as [expired | e].
  2:{ eexists. split; [reflexivity |]. simpl. rewrite PS.
      repeat split; try (rewrite <- app_assoc; reflexivity);
        intros; eapply Same; eauto. }
  destruct expired; cbn [negb].
  - eexists. split; [reflexivity |]. simpl. rewrite PS.
    repeat split; try (rewrite <- app_assoc; reflexivity);
      intros; eapply Same; eauto.
  - eexists. split; [reflexivity |]. simpl. rewrite PS.
    repeat split; try (rewrite <- app_assoc; reflexivity);
      intros; eapply Same; eauto.
Qed.

(** [checkSalesforceAuth] never throws and shows exactly one of the two
    sections: the main application when the stored text is not empty and
    parses to a session with a truthy access token that is not reported
    expired, in which case the two loaders are called, and the sign-in
    section in every other case, unparseable text included.  The stored
    entry is left alone.  A session that parses becomes the global
    [salesforceSession] even when it is turned down as expired. *)
Theorem checkSalesforceAuth_decides :
  forall (now : Z) (p : Pane),
    exists p',
      checkSalesforceAuth h now p = (Ok tt, p')
      /\ mainAppHidden p' = negb (accepted h now p)
      /\ authSectionHidden p' = accepted h now p
      /\ paneStorage p' = paneStorage p
      /\ loading p'
         = (if accepted h now p
            then loading p ++ ["loadRelatedRecords"; "loadRecentActivity"]
            else loading p)%list
      /\ (forall s session,
            paneStorage p = Some s -> s <> "" ->
            JSON_parse h s = Some session ->
            salesforceSession p' = session).
Proof.
  intros now p. exact (checkSalesforceAuth_shows now p).
Qed.

Lemma accepted_mockSession instanceUrl t1 t2 now p :
  let m := mockSession instanceUrl t1 t2 in
  paneStorage p = Some (JSON_stringify h m) ->
  JSON_parse h (JSON_stringify h m) = Some m ->
  JSON_stringify h m <> "" ->
  accepted h now p = (now - t2 <=? expirationTime).
Proof.
  intros m PS J NE. unfold accepted. rewrite PS.
  destruct (String.eqb_spec (JSON_stringify h m) ""); [contradiction |].
  cbn [negb andb]. rewrite J.
  assert (P : present m "access_token" = true) by reflexivity.
  rewrite P. cbn [andb].
  unfold isTokenExpired, m, mockSession. cbn [get lookup obind].
  cbn [String.eqb Ascii.eqb Bool.eqb].
  cbn [truthy ToString]. rewrite string_of_Z_nonempty. cbn [negb].
  rewrite parseInt_string_of_Z. cbn [num_sub num_gt].
  rewrite Z.gtb_ltb. rewrite Z.leb_antisym. reflexivity.
Qed.

(** Signing in and coming back.  The session [simulateAuthentication]
    stores at time [t2] is accepted by [checkSalesforceAuth] at time
    [now] exactly while [now - t2] is at most two hours: the time stamp
    it prints is read back as the same number.  The host's JSON functions
    are taken to give the session back from its text. *)
Theorem simulateAuthentication_then_check :
  forall (instanceUrl : value) (t1 t2 now : Z) (p : Pane),
    let m := mockSession instanceUrl t1 t2 in
    JSON_parse h (JSON_stringify h m) = Some m ->
    JSON_stringify h m <> "" ->
    exists p1 p2,
      simulateAuthentication h instanceUrl t1 t2 p = (Ok tt, p1)
      /\ salesforceSession p1 = m
      /\ mainAppHidden p1 = false
      /\ checkSalesforceAuth h now p1 = (Ok tt, p2)
      /\ mainAppHidden p2 = negb (now - t2 <=? expirationTime)
      /\ authSectionHidden p2 = (now - t2 <=? expirationTime)
      /\ salesforceSession p2 = m.
Proof.
  intros instanceUrl t1 t2 now p m J NE.
  eexists.
  match goal with
  | |- exists p2, ?run = (Ok tt, ?p1) /\ _ =>
      assert (S : run = (Ok tt, snd run)) by reflexivity
  end.
  set (p1 := snd (simulateAuthentication h instanceUrl t1 t2 p)) in *.
  assert (PS : paneStorage p1 = Some (JSON_stringify h m)) by reflexivity.
  destruct (checkSalesforceAuth_shows now p1)
    as [p2 [C [MH [AH [_ [_ Sess]]]]]].
  rewrite (accepted_mockSession instanceUrl t1 t2 now p1 PS J NE) in MH, AH.
  exists p2. split; [exact S |].
  split; [reflexivity |]. split; [reflexivity |].
  split; [exact C |]. split; [exact MH |]. split; [exact AH |].
  exact (Sess _ m PS NE J).
Qed.

(** After [logoutFromSalesforce] the global session is null and the
    store is empty, so whatever the time [checkSalesforceAuth] shows the
    sign-in section and calls no loader. *)
Theorem logoutFromSalesforce_then_check :
  forall (now : Z) (p : Pane),
    exists p1 p2,
      logoutFromSalesforce p = (Ok tt, p1)
      /\ salesforceSession p1 = VNull
      /\ paneStorage p1 = None
      /\ authSectionHidden p1 = false
      /\ checkSalesforceAuth h now p1 = (Ok tt, p2)
      /\ authSectionHidden p2 = false
      /\ mainAppHidden p2 = true
      /\ salesforceSession p2 = VNull
      /\ loading p2 = loading p.
Proof.
  intros now p. eexists. eexists.
  split; [reflexivity |]. repeat split.
Qed.

End Pane.

(** ** The further properties at concrete inputs *)

Lemma apiCall_without_credentials_example :
  apiCall rejectingHost "sobjects/User/me" "GET" VNull (newService None)
  = (Throw NotAuthenticated, newService None).
Proof.
  apply (apiCall_without_credentials rejectingHost (newService None) VNull);
    reflexivity.
Defined.

Lemma apiCall_reads_through_the_store_example :
  let w := newService (Some (stringify fullSession)) in
  exists first rest,
    sent (snd (apiCall rejectingHost "sobjects/User/me" "GET" VNull w))
      = (first :: rest)%list
    /\ url first
       = "https://acme.my.salesforce.com/services/data/v58.0/sobjects/User/me"
    /\ authorization first = Some "Bearer T1"
    /\ method first = "GET".
Proof.
  intros w.
  assert (P : parseStored rejectingHost (localStorage w) = Ok fullSession)
    by (vm_compute; reflexivity).
  exact (proj2 (apiCall_reads_through_the_store rejectingHost w fullSession
                  "sobjects/User/me" "GET" VNull eq_refl P eq_refl)).
Defined.

Lemma apiCall_failure_is_not_retried_example :
  fst (apiCall leadsOnlyHost "sobjects/User/me" "GET" VNull signedIn)
  = Throw (JsError "API call failed: 500 - ").
Proof.
  rewrite (proj1 (apiCall_failure_is_not_retried leadsOnlyHost
                    "sobjects/User/me" "GET" VNull signedIn signedIn
                    (mkResponse 500 "") eq_refl eq_refl
                    ltac:(discriminate) eq_refl)).
  reflexivity.
Defined.

Lemma apiCall_retries_with_the_new_token_example :
  fst (apiCall (refreshingHost (mkResponse 200 (stringify tokenData)))
         "sobjects/User/me" "GET" VNull
         (newService (Some (stringify fullSession))))
  = Ok tokenData.
Proof.
  set (host := refreshingHost (mkResponse 200 (stringify tokenData))).
  set (w0 := mkState (VStr "T1") instance0 (Some (stringify fullSession))
               [] []).
  set (w2 := snd (refreshToken host VUndefined
                    (add_sent (apiRequest host "sobjects/User/me" "GET"
                                 VNull w0) w0))).
  assert (R : resolveCredentials host
                (newService (Some (stringify fullSession))) = (Ok tt, w0))
    by (vm_compute; reflexivity).
  assert (RT : refreshToken host VUndefined
                 (add_sent (apiRequest host "sobjects/User/me" "GET"
                              VNull w0) w0) = (Ok tokenData, w2))
    by (vm_compute; reflexivity).
  assert (J : JSON_parse host (stringify tokenData) = Some tokenData)
    by (vm_compute; reflexivity).
  rewrite (proj1 (apiCall_retries_with_the_new_token host
                    "sobjects/User/me" "GET" VNull
                    (newService (Some (stringify fullSession))) w0 w2
                    (mkResponse 401 "")
                    (mkResponse 200 (stringify tokenData))
                    tokenData tokenData R eq_refl eq_refl RT
                    eq_refl eq_refl J)).
  reflexivity.
Defined.

Lemma refreshToken_writes_through_example :
  let w := mkState (VStr "T1") instance0 (Some (stringify fullSession)) [] [] in
  accessToken (snd (refreshToken (refreshingHost noContent) VUndefined w))
    = VStr "T2"
  /\ localStorage (snd (refreshToken (refreshingHost noContent) VUndefined w))
     = Some (stringify refreshedSession).
Proof.
  intros w.
  set (fs := [("access_token", VStr "T1"); ("refresh_token", VStr "R1");
              ("instance_url", instance0);
              ("issued_at", VStr "1700000000000");
              ("signature", VStr "sig")]).
  assert (P : parseStored (refreshingHost noContent) (localStorage w)
              = Ok (VObj fs))
    by (vm_compute; reflexivity).
  rewrite (proj1 (refreshToken_writes_through (refreshingHost noContent)
                    VUndefined w fs (mkResponse 200 (stringify tokenData))
                    tokenData P eq_refl eq_refl eq_refl
                    ltac:(vm_compute; reflexivity) eq_refl)).
  split; reflexivity.
Defined.

Lemma exchangeCodeForToken_outcomes_example :
  let w := mkState VNull instance0 None [] [] in
  fst (exchangeCodeForToken rejectingHost (VStr "code") (VStr "client")
         (VStr "https://acme.com/cb") w)
    = Throw (JsError "Token exchange failed: 401")
  /\ accessToken
       (snd (exchangeCodeForToken (refreshingHost noContent) (VStr "code")
               (VStr "client") (VStr "https://acme.com/cb") w))
     = VStr "T2".
Proof.
  intros w. split.
  - rewrite (proj1 (exchangeCodeForToken_outcomes rejectingHost (VStr "code")
                      (VStr "client") (VStr "https://acme.com/cb") w
                      (mkResponse 401 "") eq_refl) eq_refl).
    reflexivity.
  - rewrite (proj2 (exchangeCodeForToken_outcomes (refreshingHost noContent)
                      (VStr "code") (VStr "client")
                      (VStr "https://acme.com/cb") w
                      (mkResponse 200 (stringify tokenData)) eq_refl)
               tokenData eq_refl eq_refl eq_refl).
    reflexivity.
Defined.

Lemma logEmail_record_example :
  exists fs,
    emailRecord sampleEmail (VStr "0031") = Ok (VObj fs)
    /\ lookup "RelatedToId" fs = VStr "0031"
    /\ lookup "Incoming" fs = VBool false.
Proof.
  destruct (logEmail_record sampleEmail (VStr "0031") eq_refl)
    as [fs [E [_ [_ [R [_ [_ I]]]]]]].
  exists fs. split; [exact E |]. split; [exact (R eq_refl) | exact I].
Defined.

Lemma createEmailTask_record_example :
  exists fs,
    taskRecord "2024-05-01" sampleEmail (VStr "0011") (VStr "0031")
      = Ok (VObj fs)
    /\ lookup "WhatId" fs = VStr "0011"
    /\ lookup "WhoId" fs = VStr "0031"
    /\ lookup "Subject" fs = VStr "Email: Quote".
Proof.
  destruct (createEmailTask_record "2024-05-01" sampleEmail (VStr "0011")
              (VStr "0031") eq_refl)
    as [fs [E [_ [_ [_ [A [B [S _]]]]]]]].
  exists fs. split; [exact E |].
  split; [exact (A eq_refl) |]. split; [exact (B eq_refl) | exact S].
Defined.

Lemma createActivityFromEmail_links_example :
  exists fs,
    activityTask "2024-05-01" sampleEmail
      (VObj [("relatedToId", VStr "0031"); ("relatedToType", VStr "Contact")])
      = Ok (VObj fs)
    /\ has "WhoId" fs = true
    /\ has "WhatId" fs = false.
Proof.
  eexists. split; [reflexivity |].
  match goal with
  | |- has _ ?fs = _ /\ _ =>
      pose proof (createActivityFromEmail_links "2024-05-01" sampleEmail
                    (VObj [("relatedToId", VStr "0031");
                           ("relatedToType", VStr "Contact")])
                    fs eq_refl) as [A [B _]]
  end.
  split; [exact A | exact B].
Defined.

Lemma createActivityFromEmail_defaults_example :
  exists fs,
    activityTask "2024-05-01" VNull
      (VObj [("subject", VStr "Call back"); ("description", VStr "Soon")])
      = Ok (VObj fs)
    /\ lookup "Subject" fs = VStr "Call back"
    /\ lookup "Status" fs = VStr "Completed".
Proof.
  destruct (createActivityFromEmail_defaults "2024-05-01" VNull
              (VObj [("subject", VStr "Call back");
                     ("description", VStr "Soon")])
              eq_refl (or_intror (conj eq_refl eq_refl)))
    as [fs [E [S [_ [_ [St _]]]]]].
  exists fs. split; [exact E |]. split; [exact S | exact St].
Defined.

Lemma findByEmail_absorbs_failures_example :
  fst (findByEmail leadsOnlyHost (VStr "x@y.com") signedIn)
    = Ok ByEmail.empty
  /\ fst (findByEmail contactsOnlyHost (VStr "x@y.com") signedIn)
     = Ok (ByEmail.mk (prop contactsFound "records") (VArr [])).
Proof.
  split.
  - pose proof (findByEmail_absorbs_failures leadsOnlyHost (VStr "x@y.com")
                  signedIn) as [_ [Fails _]].
    erewrite Fails; [reflexivity | vm_compute; reflexivity].
  - pose proof (findByEmail_absorbs_failures contactsOnlyHost
                  (VStr "x@y.com") signedIn) as [_ [_ [Kept _]]].
    erewrite (Kept contactsFound _ (prop contactsFound "records"));
      [reflexivity | vm_compute; reflexivity | reflexivity
       | vm_compute; reflexivity].
Defined.

Lemma searchContactsAndLeads_rows_example :
  fst (searchContactsAndLeads contactsOnlyHost (VStr "x@y") signedIn)
  = Ok [VObj [("id", VStr "0031"); ("name", VUndefined);
              ("email", VStr "x@y.com"); ("phone", VUndefined);
              ("company", VStr ""); ("title", VUndefined);
              ("type", VStr "Contact")]].
Proof.
  pose proof (searchContactsAndLeads_rows contactsOnlyHost (VStr "x@y")
                signedIn) as [_ Rows].
  specialize (Rows contactsFound _
                [VObj [("Id", VStr "0031"); ("Email", VStr "x@y.com")]]
                [VObj [("id", VStr "0031"); ("name", VUndefined);
                       ("email", VStr "x@y.com"); ("phone", VUndefined);
                       ("company", VStr ""); ("title", VUndefined);
                       ("type", VStr "Contact")]]
                ltac:(vm_compute; reflexivity) eq_refl eq_refl).
  destruct Rows as [_ [_ [Fails _]]].
  erewrite Fails; [reflexivity | vm_compute; reflexivity].
Defined.

Lemma getUserActivities_absorbs_failures_example :
  fst (getUserActivities rejectingHost VUndefined (newService None))
    = Ok (VObj [("records", VArr [])])
  /\ fst (getRecentActivities rejectingHost VUndefined (newService None))
     = Throw NotAuthenticated.
Proof.
  pose proof (getUserActivities_absorbs_failures rejectingHost VUndefined
                (newService None)) as [_ [Fails _]].
  destruct (Fails NotAuthenticated (newService None) eq_refl) as [A B].
  rewrite A, B. split; reflexivity.
Defined.

Lemma deleteRecord_no_content_example :
  fst (deleteRecord (refreshingHost noContent) "Contact" (VStr "0031")
         signedInT2)
  = Ok (VObj []).
Proof.
  rewrite (deleteRecord_no_content (refreshingHost noContent) "Contact"
             (VStr "0031") signedInT2 signedInT2 noContent
             eq_refl eq_refl eq_refl).
  reflexivity.
Defined.

Lemma testConnection_captures_failures_example :
  testConnection rejectingHost (fun _ => false) (fun _ => "")
    (newService None)
  = (Ok (VObj [("success", VBool false);
               ("error", VStr "Not authenticated")]), newService None).
Proof.
  exact (proj1 (proj2 (testConnection_captures_failures rejectingHost
                         (fun _ => false) (fun _ => "") (newService None)))
               NotAuthenticated (newService None) eq_refl).
Defined.

Lemma isTokenExpired_stays_expired_example :
  isTokenExpired 1700007200002 demoSession = Ok true.
Proof.
  apply (isTokenExpired_stays_expired 1700007200001 1700007200002 demoSession);
    [lia | reflexivity].
Defined.

Lemma getTimeAgo_units_example :
  getTimeAgo 1700000030000 1700000000000 = "0 minute ago"
  /\ getTimeAgo 1700007200000 1700000000000 = "2 hours ago"
  /\ getTimeAgo 1700086400000 1700000000000 = "1 day ago".
Proof.
  split; [| split].
  - assert (A : 1700000030000 - 1700000000000 < msPerHour)
      by (vm_compute; reflexivity).
    exact (proj1 (proj2 (proj2 (getTimeAgo_units 1700000030000
                                  1700000000000)) A)).
  - assert (A : msPerHour <= 1700007200000 - 1700000000000 < msPerDay)
      by (split; vm_compute; [discriminate | reflexivity]).
    exact (proj1 (proj1 (proj2 (getTimeAgo_units 1700007200000
                                  1700000000000)) A)).
  - assert (A : msPerDay <= 1700086400000 - 1700000000000)
      by (vm_compute; discriminate).
    exact (proj1 (proj1 (getTimeAgo_units 1700086400000 1700000000000) A)).
Defined.

Lemma checkSalesforceAuth_decides_example :
  let p := blankPane (Some (stringify expiredSession)) in
  exists p',
    checkSalesforceAuth expiredHost 1700000000000 p = (Ok tt, p')
    /\ authSectionHidden p' = false
    /\ mainAppHidden p' = true
    /\ salesforceSession p' = expiredSession.
Proof.
  intros p.
  destruct (checkSalesforceAuth_decides expiredHost 1700000000000 p)
    as [p' [C [M [A [_ [_ S]]]]]].
  exists p'. split; [exact C |]. split; [exact A |]. split; [exact M |].
  apply (S (stringify expiredSession)); [reflexivity | discriminate |].
  vm_compute. reflexivity.
Defined.

Lemma simulateAuthentication_then_check_example :
  let t := 1700000000000 in
  exists p1 p2,
    simulateAuthentication (mockHost t) instance0 t t (blankPane None)
      = (Ok tt, p1)
    /\ checkSalesforceAuth (mockHost t) (t + 7200000) p1 = (Ok tt, p2)
    /\ mainAppHidden p2 = false.
Proof.
  intros t.
  destruct (simulateAuthentication_then_check (mockHost t) instance0 t t
              (t + 7200000) (blankPane None))
    as [p1 [p2 [S [_ [_ [C [M _]]]]]]].
  - vm_compute. reflexivity.
  - discriminate.
  - exists p1, p2. split; [exact S |]. split; [exact C |]. exact M.
Defined.

(** ** findRelatedRecords when every query succeeds *)

Section RelatedSuccess.

Variable h : Host.



End RelatedSuccess.

